(** * Patient Khata: the search / edit view (src/pages/SearchPatient.tsx)

    A shallow embedding of the one stateful flow of the application: the
    [SearchPatient] React component, its event handlers and the Firestore
    collaborator they talk to.

    - JavaScript objects whose fields hold strings (document data, the
      in-memory patient, the edit draft) are finite maps from field names
      to strings.
    - React state is a record; a handler reads the values captured by the
      render it was created in and applies its [set...] updates to the
      current state.
    - [handleSearch] is [async]: it is modelled by the part that runs up
      to [await getDocs(q)] and the part that runs once the promise has
      settled, with the variables it closed over kept in between.
    - Everything observable from outside (toasts, store calls) is logged,
      in order, as a list of effects.
    - The event system covers one mounted view, from its first render on;
      the cleanup function of the mount effect is [unmount].  The store is
      shared by the whole application: the listeners that earlier views
      left behind are in it when the view mounts. *)

From stdpp Require Import gmap strings list fin_maps.
From Stdlib Require Import Ascii String.

Local Open Scope string_scope.
Local Open Scope list_scope.

(** ** Strings *)

(** A string is the sequence of its code units, restricted to the 8-bit
    range.  [String.prototype.trim] removes WhiteSpace and LineTerminator
    code points from both ends; below 256 these are TAB, LF, VT, FF, CR,
    SPACE and NBSP. *)
Definition is_space (c : ascii) : bool :=
  let n := nat_of_ascii c in
  (Nat.eqb n 9 || Nat.eqb n 10 || Nat.eqb n 11 || Nat.eqb n 12 || Nat.eqb n 13
   || Nat.eqb n 32 || Nat.eqb n 160)%bool.

Fixpoint trimStart (s : string) : string :=
  match s with
  | EmptyString => EmptyString
  | String c s' => if is_space c then trimStart s' else s
  end.

Fixpoint trimEnd (s : string) : string :=
  match s with
  | EmptyString => EmptyString
  | String c s' =>
      match trimEnd s' with
      | EmptyString => if is_space c then EmptyString else String c EmptyString
      | t => String c t
      end
  end.

Definition trim (s : string) : string := trimEnd (trimStart s).

(** Truthiness of a string: only the empty string is falsy. *)
Definition truthy (s : string) : bool :=
  match s with EmptyString => false | _ => true end.

(** Every code unit of [s] is white space. *)
Fixpoint all_space (s : string) : bool :=
  match s with
  | EmptyString => true
  | String c s' => is_space c && all_space s'
  end.

(** ** Document ids and paths *)

Definition is_slash (c : ascii) : bool := Nat.eqb (nat_of_ascii c) 47.

(** [s.indexOf('/') !== -1] *)
Fixpoint has_slash (s : string) : bool :=
  match s with
  | EmptyString => false
  | String c s' => is_slash c || has_slash s'
  end.

(** [s.indexOf('//') >= 0] *)
Fixpoint has_double_slash (s : string) : bool :=
  match s with
  | String a (String b _ as s') =>
      (is_slash a && is_slash b) || has_double_slash s'
  | _ => false
  end.

(** [s.split('/').filter(segment => segment.length > 0).length];
    [inside] tells whether the previous character belongs to a segment. *)
Fixpoint count_segments (inside : bool) (s : string) : nat :=
  match s with
  | EmptyString => 0
  | String c s' =>
      if is_slash c then count_segments false s'
      else (if inside then 0 else 1) + count_segments true s'
  end.

(** The value of a [where("__name__", "==", v)] on a collection must be a
    plain document id: [query(...)] throws on the empty string and on a
    value that contains a slash. *)
Definition plain_document_id (v : string) : bool :=
  truthy v && negb (has_slash v).

(** [doc(db, "patients", id)] throws when [id] contains [//] and when the
    path made of [patients] and the segments of [id] has an odd number of
    segments. *)
Definition doc_path_ok (id : string) : bool :=
  negb (has_double_slash id) && Nat.even (1 + count_segments false id).

(** ** Objects and the Patient type *)

(** [type Patient = { id, name, age, bloodPressure, disease, prescription,
    createdAt, doctorId, lastVisitDate : string }].  Types are erased at run
    time; [Partial<Patient>], [Omit<Patient, "id">] and the result of
    [snapshot.data()] are all plain objects with string fields. *)
Abbreviation Obj := (gmap string string).

(** [{ id: foundDocId, ...data }]: later properties win, so a field named
    [id] inside [data] replaces the one written first. *)
Definition with_id (foundDocId : string) (data : Obj) : Obj :=
  data ∪ {[ "id" := foundDocId ]}.

(** ** Component state

    The six [useState] cells of [SearchPatient].  [unsubscribeSnapshot]
    holds the function returned by [onSnapshot]; it is represented by the
    handle of the listener that calling it detaches. *)
Record State := mkState {
  patientId : string;
  isLoading : bool;
  patient : option Obj;
  editMode : bool;
  updateData : Obj;
  unsubscribeSnapshot : option nat;
}.

Definition setPatientId (v : string) (s : State) : State :=
  mkState v (isLoading s) (patient s) (editMode s) (updateData s)
          (unsubscribeSnapshot s).
Definition setIsLoading (v : bool) (s : State) : State :=
  mkState (patientId s) v (patient s) (editMode s) (updateData s)
          (unsubscribeSnapshot s).
Definition setPatient (v : option Obj) (s : State) : State :=
  mkState (patientId s) (isLoading s) v (editMode s) (updateData s)
          (unsubscribeSnapshot s).
Definition setEditMode (v : bool) (s : State) : State :=
  mkState (patientId s) (isLoading s) (patient s) v (updateData s)
          (unsubscribeSnapshot s).
Definition setUpdateData (v : Obj) (s : State) : State :=
  mkState (patientId s) (isLoading s) (patient s) (editMode s) v
          (unsubscribeSnapshot s).
Definition setUnsubscribeSnapshot (v : option nat) (s : State) : State :=
  mkState (patientId s) (isLoading s) (patient s) (editMode s) (updateData s) v.

(** [useState(initialPatientId)], [useState(false)], [useState(null)],
    [useState(false)], [useState({})], [useState(null)]. *)
Definition initialState (initialPatientId : string) : State :=
  mkState initialPatientId false None false ∅ None.

(** ** The store collaborator (Firestore) *)

(** [where(field, "==", value)] *)
Inductive Constraint := where_eq (field value : string).

(** [query(collection(db, name), ...constraints)] *)
Record Query := mkQuery {
  q_collection : string;
  q_constraints : list Constraint;
}.

(** A document snapshot: the store-assigned id and the data. *)
Record Doc := mkDoc { doc_id : string; doc_data : Obj }.

(** A listener registered by [onSnapshot(doc(db, "patients", id), cb)].
    [l_callback] is the closure [cb], applied to the data of the snapshot
    ([None] when [snapshot.exists()] is false). *)
Record Listener := mkListener {
  l_handle : nat;
  l_doc : string;
  l_callback : option Obj → State → State;
}.

Record Firestore := mkFirestore {
  patients : gmap string Obj;
  listeners : list Listener;
  next_handle : nat;
}.

(** The field a constraint looks at; [__name__] is the document id. *)
Definition field_of (d : Doc) (f : string) : option string :=
  if String.eqb f "__name__" then Some (doc_id d) else doc_data d !! f.

Definition satisfies (d : Doc) (k : Constraint) : bool :=
  match k with
  | where_eq f v =>
      match field_of d f with
      | Some x => String.eqb x v
      | None => false
      end
  end.

Definition collection (db : Firestore) (name : string) : gmap string Obj :=
  if String.eqb name "patients" then patients db else ∅.

(** [getDocs(q)] when the call succeeds: the documents of the collection
    that satisfy every constraint. *)
Definition getDocs (q : Query) (db : Firestore) : list Doc :=
  List.filter (λ d, forallb (satisfies d) (q_constraints q))
    (List.map (λ kv, mkDoc kv.1 kv.2)
       (map_to_list (collection db (q_collection q)))).

(** [onSnapshot(doc(db, "patients", id), cb)]: registers the listener and
    returns its unsubscribe function. *)
Definition onSnapshot (id : string) (cb : option Obj → State → State)
    (db : Firestore) : nat * Firestore :=
  (next_handle db,
   mkFirestore (patients db)
     (listeners db ++ [mkListener (next_handle db) id cb])
     (S (next_handle db))).

(** Calling the unsubscribe function with handle [h]; calling it again
    later does nothing. *)
Definition unsubscribe (h : nat) (db : Firestore) : Firestore :=
  mkFirestore (patients db)
    (List.filter (λ l, negb (Nat.eqb (l_handle l) h)) (listeners db))
    (next_handle db).

(** ** Effects visible outside the component *)

Inductive Variant := Default | Destructive.

Inductive Effect :=
| Toast (title description : string) (variant : Variant)
| GetDocs (q : Query)
| Unsubscribe (h : nat)
| OnSnapshot (id : string) (h : nat)
| UpdateDoc (id : string) (fields : Obj)
| ConsoleError (message : string).

(** ** Event handlers *)

(** The callback handed to [onSnapshot] inside [handleSearch].  It closes
    over [foundDocId] and over the [editMode] of the render whose
    [handleSearch] is running; [setPatient] and [setUpdateData] act on the
    state current at delivery. *)
Definition snapshot_callback (foundDocId : string) (editMode_captured : bool)
    (snapshot : option Obj) (s : State) : State :=
  match snapshot with
  | Some data =>
      let s1 := setPatient (Some (with_id foundDocId data)) s in
      if negb editMode_captured then setUpdateData data s1 else s1
  | None => setPatient None s
  end.

(** [query(collection(db, "patients"), where("doctorId", "==", uid),
    where("__name__", "==", patientId))] *)
Definition scoped_query (uid pid : string) : Query :=
  mkQuery "patients" [where_eq "doctorId" uid; where_eq "__name__" pid].

(** What a running [handleSearch] still needs once [getDocs] has settled:
    the query it sent and the render values its remaining code reads. *)
Record Pending := mkPending {
  p_query : Query;
  p_editMode : bool;
  p_unsubscribeSnapshot : option nat;
}.

Definition search_failed : list Effect :=
  [Toast "Error" "Failed to search for patient" Destructive;
   ConsoleError "Error searching for patient:"].

(** [handleSearch], from its first line to [await getDocs(q)].  When the
    identifier is not a plain document id, [query(...)] throws inside the
    [try]: the [catch] and [finally] blocks run and [getDocs] is never
    called. *)
Definition handleSearch_start (currentUser : option string) (s : State)
    : State * list Effect * option Pending :=
  if negb (truthy (trim (patientId s))) then
    (s, [Toast "Error" "Please enter a patient ID" Destructive], None)
  else
    match currentUser with
    | None =>
        (s, [Toast "Error" "You must be logged in to search for patients"
               Destructive], None)
    | Some uid =>
        if plain_document_id (patientId s) then
          let q := scoped_query uid (patientId s) in
          (setIsLoading true s, [GetDocs q],
           Some (mkPending q (editMode s) (unsubscribeSnapshot s)))
        else
          (setIsLoading false (setIsLoading true s), search_failed, None)
    end.

(** [if (unsubscribeSnapshot) unsubscribeSnapshot();] *)
Definition call_unsubscribe (u : option nat) (db : Firestore)
    : Firestore * list Effect :=
  match u with
  | Some h => (unsubscribe h db, [Unsubscribe h])
  | None => (db, [])
  end.

(** [handleSearch], from the settling of [getDocs(q)] to its end.
    [result = None] is a rejected promise ([catch]); the [finally] block
    runs on every path. *)
Definition handleSearch_resume (p : Pending) (result : option (list Doc))
    (s : State) (db : Firestore) : State * Firestore * list Effect :=
  match result with
  | None =>
      (setIsLoading false s, db,
       [Toast "Error" "Failed to search for patient" Destructive;
        ConsoleError "Error searching for patient:"])
  | Some [] =>
      let s1 := setPatient None s in
      let '(db1, e1) := call_unsubscribe (p_unsubscribeSnapshot p) db in
      (setIsLoading false s1, db1,
       Toast "Not found" "No patient found with that ID" Destructive :: e1)
  | Some (docSnap :: _) =>
      let foundDocId := doc_id docSnap in
      let '(db1, e1) := call_unsubscribe (p_unsubscribeSnapshot p) db in
      let '(unsub, db2) :=
        onSnapshot foundDocId (snapshot_callback foundDocId (p_editMode p)) db1 in
      (setIsLoading false (setUnsubscribeSnapshot (Some unsub) s), db2,
       e1 ++ [OnSnapshot foundDocId unsub])
  end.

(** [toggleEditMode] *)
Definition toggleEditMode (s : State) : State :=
  let s1 := setEditMode (negb (editMode s)) s in
  match editMode s, patient s with
  | true, Some p => setUpdateData p s1
  | _, _ => s1
  end.

(** [handleInputChange]: [{ ...prev, [name]: value }] *)
Definition handleInputChange (name value : string) (s : State) : State :=
  setUpdateData (<[name := value]> (updateData s)) s.

(** The object passed to [updateDoc]:
    [{ ...updateData, lastVisitDate: new Date().toISOString() }]. *)
Definition update_fields (now : string) (draft : Obj) : Obj :=
  <["lastVisitDate" := now]> draft.

Definition update_failed : list Effect :=
  [Toast "Error" "Failed to update patient information" Destructive;
   ConsoleError "Error updating patient:"].

(** [doc(db, "patients", patient.id)]: the path of the document, or
    [None] when the call throws (no [id], or not a document path). *)
Definition doc_ref (p : Obj) : option string :=
  match p !! "id" with
  | Some id => if doc_path_ok id then Some id else None
  | None => None
  end.

(** [handleUpdatePatient].  [now] is the value of
    [new Date().toISOString()].  [reply] is the answer of the store to
    [updateDoc(patientRef, fields)]: the collection as the write leaves
    it, or [None] when the call throws or its promise is rejected (field
    names the SDK refuses, a document that is gone, the network, the
    rules).  What the store does with the fields is its own business; the
    handler only distinguishes the two outcomes. *)
Definition handleUpdatePatient (now : string)
    (reply : option (gmap string Obj)) (s : State) (db : Firestore)
    : State * Firestore * list Effect :=
  match patient s with
  | None => (s, db, [])
  | Some p =>
      match doc_ref p with
      | None => (s, db, update_failed)
      | Some id =>
          let fields := update_fields now (updateData s) in
          match reply with
          | Some docs =>
              (setEditMode false s,
               mkFirestore docs (listeners db) (next_handle db),
               [UpdateDoc id fields;
                Toast "Success" "Patient information updated successfully!"
                  Default])
          | None => (s, db, UpdateDoc id fields :: update_failed)
          end
      end
  end.

(** ** The view as an event system *)

Record Config := mkConfig {
  ui : State;
  store : Firestore;
  currentUser : option string;
  pending : option Pending;
  log : list Effect;
}.

Inductive Event :=
| Type_patientId (v : string)
| Click_search
| Query_settles (ok : bool)
| Snapshot_delivered (h : nat)
| Click_toggle
| Input_change (name value : string)
| Submit_form (now : string) (reply : option (gmap string Obj))
| Remote_write (id : string) (data : Obj)
| Remote_delete (id : string)
| Auth_change (user : option string).

(** What the JSX renders: the record table and the toggle button sit
    inside [{patient && ...}], the form inside [{editMode && ...}] within
    it, and the search button has [disabled={isLoading}]. *)
Definition search_enabled (s : State) : bool := negb (isLoading s).
Definition record_rendered (s : State) : bool :=
  match patient s with Some _ => true | None => false end.
Definition form_rendered (s : State) : bool :=
  record_rendered s && editMode s.

Definition with_ui (s : State) (c : Config) : Config :=
  mkConfig s (store c) (currentUser c) (pending c) (log c).
Definition with_patients (m : gmap string Obj) (c : Config) : Config :=
  mkConfig (ui c)
    (mkFirestore m (listeners (store c)) (next_handle (store c)))
    (currentUser c) (pending c) (log c).

(** A click on the search button, or the call made by the mount effect. *)
Definition do_search (c : Config) : Config :=
  let '(s, e, p) := handleSearch_start (currentUser c) (ui c) in
  mkConfig s (store c) (currentUser c)
    (match p with Some _ => p | None => pending c end) (log c ++ e).

Definition find_listener (h : nat) (db : Firestore) : option Listener :=
  List.find (λ l, Nat.eqb (l_handle l) h) (listeners db).

Definition step (e : Event) (c : Config) : Config :=
  match e with
  | Type_patientId v => with_ui (setPatientId v (ui c)) c
  | Click_search => if search_enabled (ui c) then do_search c else c
  | Query_settles ok =>
      match pending c with
      | None => c
      | Some p =>
          let result := if ok then Some (getDocs (p_query p) (store c)) else None in
          let '(s, db, e) := handleSearch_resume p result (ui c) (store c) in
          mkConfig s db (currentUser c) None (log c ++ e)
      end
  | Snapshot_delivered h =>
      match find_listener h (store c) with
      | Some l =>
          with_ui (l_callback l (patients (store c) !! l_doc l) (ui c)) c
      | None => c
      end
  | Click_toggle =>
      if record_rendered (ui c) then with_ui (toggleEditMode (ui c)) c else c
  | Input_change name value =>
      if form_rendered (ui c) then with_ui (handleInputChange name value (ui c)) c
      else c
  | Submit_form now reply =>
      if form_rendered (ui c) then
        let '(s, db, e) := handleUpdatePatient now reply (ui c) (store c) in
        mkConfig s db (currentUser c) (pending c) (log c ++ e)
      else c
  | Remote_write id data => with_patients (<[id := data]> (patients (store c))) c
  | Remote_delete id => with_patients (delete id (patients (store c))) c
  | Auth_change user =>
      mkConfig (ui c) (store c) user (pending c) (log c)
  end.

Definition run (es : list Event) (c : Config) : Config :=
  fold_left (λ c e, step e c) es c.

(** Mounting the view on the store [db] of the application: fresh state
    and the effect [if (initialPatientId) handleSearch()] of the first
    render. *)
Definition mount (initialPatientId : string) (user : option string)
    (db : Firestore) : Config :=
  let c := mkConfig (initialState initialPatientId) db user None [] in
  if truthy initialPatientId then do_search c else c.

(** The listeners found in the store at mount were registered by views
    that are gone: their callbacks set the state of those views and leave
    this one alone.  Handles already handed out are below [next_handle]. *)
Definition leaked (db : Firestore) : Prop :=
  ∀ l, In l (listeners db) →
       (∀ o s, l_callback l o s = s) ∧ l_handle l < next_handle db.

Definition reachable_from (db : Firestore) (c : Config) : Prop :=
  ∃ initialPatientId user es, c = run es (mount initialPatientId user db).

Definition reachable (c : Config) : Prop :=
  ∃ db, leaked db ∧ reachable_from db c.

(** The listeners of the view itself: those that answer to the function
    held in [unsubscribeSnapshot]. *)
Definition own_listeners (c : Config) : list Listener :=
  match unsubscribeSnapshot (ui c) with
  | Some h => List.filter (λ l, Nat.eqb (l_handle l) h) (listeners (store c))
  | None => []
  end.

(** ** Invariant of the view

    The listeners registered are those found at mount, followed by at most
    one more: the one whose unsubscribe function sits in
    [unsubscribeSnapshot], with the closure built by [handleSearch] as its
    callback.  That function, when there is one, was handed out after
    mount.  A search in flight keeps the button disabled and closed over
    the current [unsubscribeSnapshot]; a patient held in memory carries an
    [id]. *)
Record view_inv (db0 : Firestore) (c : Config) : Prop := mkInv {
  inv_listeners : ∃ own,
    listeners (store c) = listeners db0 ++ own ∧
    ∀ l, In l own →
         own = [l] ∧
         unsubscribeSnapshot (ui c) = Some (l_handle l) ∧
         ∃ em, l_callback l = snapshot_callback (l_doc l) em;
  inv_unsub : ∀ h, unsubscribeSnapshot (ui c) = Some h →
    (next_handle db0 ≤ h < next_handle (store c))%nat;
  inv_next : (next_handle db0 ≤ next_handle (store c))%nat;
  inv_pending : ∀ p, pending c = Some p →
    isLoading (ui c) = true ∧
    p_unsubscribeSnapshot p = unsubscribeSnapshot (ui c) ∧
    ∃ uid pid, p_query p = scoped_query uid pid;
  inv_patient : ∀ p, patient (ui c) = Some p → is_Some (p !! "id");
}.

(** ** Statements about the order of teardown and query *)


(** ** A running example

    Doctor D1 owns patient P123.  [searching_ex]: D1 has typed the id and
    clicked the button; [found_ex]: the query has settled and the first
    snapshot has arrived. *)
Definition record_ex : Obj := {[ "doctorId" := "D1"; "name" := "A" ]}.
Definition docs_ex : gmap string Obj := {[ "P123" := record_ex ]}.
Definition searching_ex : Config :=
  run [Type_patientId "P123"; Click_search]
      (mount "" (Some "D1") (mkFirestore docs_ex [] 0)).
Definition found_ex : Config :=
  run [Query_settles true; Snapshot_delivered 0] searching_ex.
Definition remote_ex : Obj := {[ "doctorId" := "D1"; "name" := "C" ]}.

(** With P123 on screen, D1 types an id that is not in the store and
    clicks the button again. *)
Definition researching_ex : Config :=
  run [Type_patientId "P999"; Click_search] found_ex.

(** With P123 on screen, D1 opens the form and changes the name. *)
Definition editing_ex : Config :=
  run [Click_toggle; Input_change "name" "B"] found_ex.

(** While editing, another session changes P123 and the listener set up
    by the first search delivers the change. *)
Definition overwritten_ex : Config :=
  run [Remote_write "P123" remote_ex; Snapshot_delivered 0] editing_ex.

(** D1 opens the form, searches P123 again from there, leaves the form,
    and then another session changes P123. *)
Definition unsynced_ex : Config :=
  run [Click_toggle; Click_search; Query_settles true; Snapshot_delivered 1;
       Click_toggle; Remote_write "P123" remote_ex; Snapshot_delivered 1]
      found_ex.

(** ** Leaving the view *)

(** The cleanup function returned by the mount effect.  The effect has an
    empty dependency list, so the function that runs at unmount is the one
    the first render created, and the [unsubscribeSnapshot] it tests is
    that render's: the initial value of the state cell. *)
Definition unmount (initialPatientId : string) (c : Config) : Config :=
  let '(db, e) :=
    call_unsubscribe (unsubscribeSnapshot (initialState initialPatientId))
      (store c) in
  mkConfig (ui c) db (currentUser c) (pending c) (log c ++ e).

(** What the next view finds in the store when this one is left: the
    documents and the listeners as [unmount] leaves them.  The callbacks
    of those listeners still set the state of the view that is gone. *)
Definition orphan (l : Listener) : Listener :=
  mkListener (l_handle l) (l_doc l) (λ _ s, s).

Definition leave (initialPatientId : string) (c : Config) : Firestore :=
  let db := store (unmount initialPatientId c) in
  mkFirestore (patients db) (List.map orphan (listeners db)) (next_handle db).

(** D1 leaves the view with P123 on screen, comes back and searches P123
    again; or comes back and searches an id that is not in the store. *)
Definition reentered_found_ex : Config :=
  run [Type_patientId "P123"; Click_search; Query_settles true]
      (mount "" (Some "D1") (leave "" found_ex)).

Definition reentered_not_found_ex : Config :=
  run [Type_patientId "P999"; Click_search; Query_settles true]
      (mount "" (Some "D1") (leave "" found_ex)).

(** [searchParams.get("patientId") || ""] *)
Definition initialPatientId_of (param : option string) : string :=
  match param with
  | Some v => if truthy v then v else ""
  | None => ""
  end.

(** [value={updateData.name || ""}]: what a form control shows. *)
Definition field_value (draft : Obj) (name : string) : string :=
  match draft !! name with
  | Some v => if truthy v then v else ""
  | None => ""
  end.

(** ** The login page ([Login]) *)

Module Login.

Record State := mkState {
  username : string;
  password : string;
  isLoading : bool;
}.

Definition setIsLoading (v : bool) (s : State) : State :=
  mkState (username s) (password s) v.

(** [login] comes from the auth context and [navigate] from the router;
    both are logged. *)
Inductive Effect :=
| Toast (title description : string) (variant : Variant)
| LoginCall (username password : string)
| Navigate (path : string).

(** [handleSubmit], from its first line to [await login(...)]; the
    boolean tells whether the call was made. *)
Definition handleSubmit_start (s : State) : State * list Effect * bool :=
  if (negb (truthy (username s)) || negb (truthy (password s)))%bool then
    (s, [Toast "Error" "Please fill all fields" Destructive], false)
  else
    (setIsLoading true s, [LoginCall (username s) (password s)], true).

(** [handleSubmit], once [login] has settled ([ok = false]: rejected). *)
Definition handleSubmit_resume (ok : bool) (s : State)
    : State * list Effect :=
  (setIsLoading false s,
   if ok then
     [Toast "Success" "You've successfully logged in!" Default;
      Navigate "/dashboard"]
   else
     [Toast "Error" "Failed to log in. Please check your credentials."
        Destructive]).

(** A whole run of [handleSubmit] with nothing in between. *)
Definition handleSubmit (ok : bool) (s : State) : State * list Effect :=
  let '(s1, e1, called) := handleSubmit_start s in
  if called then
    let '(s2, e2) := handleSubmit_resume ok s1 in (s2, e1 ++ e2)
  else (s1, e1).

End Login.

(** ** The sidebar ([Sidebar]) *)

(** [isActive]: [location.pathname === path] *)
Definition isActive (pathname path : string) : bool := String.eqb pathname path.

(** The [className] template of a link. *)
Definition link_className (pathname path : string) : string :=
  String.append "block py-2 px-4 rounded-lg "
    (if isActive pathname path then "font-bold underline" else "").

(** The [to] of the two links, in the order of the JSX. *)
Definition nav_links : list string := ["/new-patient"; "/search-patient"].

(** * Properties *)

(** ** Strings *)

Example trim_ex : trim "  P123 " = "P123".
Proof. reflexivity. Qed.

Example trim_blank_ex : trim (String (ascii_of_nat 9) "  ") = "".
Proof. reflexivity. Qed.

Example trim_inner_ex : trim " a b " = "a b".
Proof. reflexivity. Qed.

Lemma truthy_false (s : string) : truthy s = false ↔ s = "".
Proof. destruct s; simpl; split; congruence. Qed.

Lemma trimStart_empty (s : string) : trimStart s = "" ↔ all_space s = true.
Proof.
  induction s as [|c s IH]; simpl; [tauto|].
  destruct (is_space c); simpl; [exact IH|].
  split; discriminate.
Qed.

Lemma trimEnd_empty (s : string) : trimEnd s = "" ↔ all_space s = true.
Proof.
  induction s as [|c s IH]; simpl; [tauto|].
  destruct (trimEnd s) as [|c' t] eqn:E.
  - destruct (is_space c); simpl; [tauto|]. split; discriminate.
  - split; [discriminate|].
    intros H. apply andb_true_iff in H as [_ H]. apply IH in H. discriminate.
Qed.

(** What [trimStart] leaves is empty or starts with a visible character. *)
Lemma trimStart_all_space (s : string) :
  all_space (trimStart s) = all_space s.
Proof.
  induction s as [|c s IH]; simpl; [done|].
  destruct (is_space c) eqn:E; simpl; [exact IH|]. by rewrite E.
Qed.

Lemma trim_empty (s : string) : trim s = "" ↔ all_space s = true.
Proof. unfold trim. by rewrite trimEnd_empty, trimStart_all_space. Qed.

Lemma blank_iff (s : string) : truthy (trim s) = false ↔ all_space s = true.
Proof. by rewrite truthy_false, trim_empty. Qed.

(** ** The scoped query *)

Lemma satisfies_scoped (uid pid : string) (d : Doc) :
  forallb (satisfies d) (q_constraints (scoped_query uid pid)) = true ↔
  doc_data d !! "doctorId" = Some uid ∧ doc_id d = pid.
Proof.
  cbn. rewrite andb_true_r, andb_true_iff, String.eqb_eq.
  destruct (doc_data d !! "doctorId") as [x|].
  - rewrite String.eqb_eq. split; intros [H1 H2]; split; congruence.
  - split; intros [H1 H2]; discriminate.
Qed.

Lemma getDocs_scoped (db : Firestore) (uid pid : string) (d : Doc) :
  In d (getDocs (scoped_query uid pid) db) ↔
  patients db !! doc_id d = Some (doc_data d) ∧
  doc_data d !! "doctorId" = Some uid ∧ doc_id d = pid.
Proof.
  unfold getDocs. rewrite filter_In, satisfies_scoped, in_map_iff.
  change (collection db (q_collection (scoped_query uid pid))) with (patients db).
  split.
  - intros [[[k v] [<- Hin]] H]. split; [|exact H].
    apply list_elem_of_In, elem_of_map_to_list in Hin. exact Hin.
  - intros [Hl H]. split; [|exact H].
    exists (doc_id d, doc_data d). split; [by destruct d|].
    by apply list_elem_of_In, elem_of_map_to_list.
Qed.

(** A record owned by another doctor, or no record at all, under the
    searched id: the query has no match. *)
Lemma getDocs_scoped_nil (db : Firestore) (uid pid : string) :
  (∀ data, patients db !! pid = Some data → data !! "doctorId" ≠ Some uid) →
  getDocs (scoped_query uid pid) db = [].
Proof.
  intros H. destruct (getDocs (scoped_query uid pid) db) as [|d l] eqn:E; [done|].
  assert (Hin : In d (getDocs (scoped_query uid pid) db)) by (rewrite E; by left).
  apply getDocs_scoped in Hin as (Hl & Hd & Hp). subst pid.
  by destruct (H _ Hl).
Qed.

(** ** Document ids and paths *)

Example doc_path_ex :
  List.map doc_path_ok ["P123"; ""; "a/b"; "a/b/c"; "/"; "a//b/c"; "/P123/"]
  = [true; false; false; true; false; false; true].
Proof. reflexivity. Qed.

Lemma no_slash_no_double (s : string) :
  has_slash s = false → has_double_slash s = false.
Proof.
  induction s as [|a s IH]; [done|]. intros H. simpl in H.
  apply orb_false_iff in H as [Ha Hs]. destruct s as [|b s']; [done|].
  change (has_double_slash (String a (String b s')))
    with ((is_slash a && is_slash b) || has_double_slash (String b s'))%bool.
  rewrite Ha. simpl. by apply IH.
Qed.

Lemma no_slash_one_segment (s : string) :
  has_slash s = false → count_segments true s = 0.
Proof.
  induction s as [|a s IH]; [done|]. simpl. intros H.
  apply orb_false_iff in H as [-> Hs]. by apply IH.
Qed.

(** An identifier that the query accepts is also a document path. *)
Lemma plain_id_doc_path (s : string) :
  plain_document_id s = true → doc_path_ok s = true.
Proof.
  unfold plain_document_id, doc_path_ok. intros H.
  apply andb_true_iff in H as [Ht Hs]. apply negb_true_iff in Hs.
  rewrite (no_slash_no_double s Hs). destruct s as [|a s]; [done|].
  simpl in *. apply orb_false_iff in Hs as [-> Hs].
  by rewrite (no_slash_one_segment s Hs).
Qed.

(** ** The invariant holds in every reachable configuration *)

Lemma filter_none {A} (f : A → bool) (l : list A) :
  (∀ x, In x l → f x = false) → List.filter f l = [].
Proof.
  induction l as [|a l IH]; simpl; intros H; [done|].
  rewrite (H a) by (by left). apply IH. intros x Hx. apply H. by right.
Qed.

Lemma filter_all {A} (f : A → bool) (l : list A) :
  (∀ x, In x l → f x = true) → List.filter f l = l.
Proof.
  induction l as [|a l IH]; simpl; intros H; [done|].
  rewrite (H a) by (by left). f_equal. apply IH. intros x Hx. apply H. by right.
Qed.

(** Calling the stored unsubscribe function removes the listener of the
    view, if there is one, and none of those found at mount. *)
Lemma call_unsubscribe_own (db0 db : Firestore) (u : option nat)
    (own : list Listener) :
  leaked db0 →
  listeners db = listeners db0 ++ own →
  (∀ l, In l own → u = Some (l_handle l)) →
  (∀ h, u = Some h → (next_handle db0 ≤ h)%nat) →
  listeners (call_unsubscribe u db).1 = listeners db0.
Proof.
  intros Hleak Hl Hown Hfresh. destruct u as [h|]; simpl.
  - rewrite Hl, List.filter_app, filter_all, filter_none, app_nil_r; [done| |].
    + intros l Hin. apply Hown in Hin. injection Hin as ->.
      by rewrite Nat.eqb_refl.
    + intros l Hin. destruct (Hleak l Hin) as [_ Hlt].
      specialize (Hfresh h eq_refl).
      apply negb_true_iff, Nat.eqb_neq. lia.
  - rewrite Hl. destruct own as [|l ls]; [by rewrite app_nil_r|].
    discriminate (Hown l). by left.
Qed.

Lemma call_unsubscribe_frame (u : option nat) (db : Firestore) :
  patients (call_unsubscribe u db).1 = patients db ∧
  next_handle (call_unsubscribe u db).1 = next_handle db.
Proof. by destruct u. Qed.

Lemma snapshot_callback_frame (id : string) (em : bool) (o : option Obj)
    (s : State) :
  let s' := snapshot_callback id em o s in
  unsubscribeSnapshot s' = unsubscribeSnapshot s ∧
  isLoading s' = isLoading s ∧ editMode s' = editMode s ∧
  patientId s' = patientId s.
Proof. destruct o, em; simpl; auto. Qed.

Lemma with_id_has_id (id : string) (data : Obj) : is_Some (with_id id data !! "id").
Proof.
  unfold with_id. destruct (data !! "id") as [x|] eqn:E.
  - exists x. by apply lookup_union_Some_l.
  - exists id. rewrite lookup_union_r by done. apply lookup_singleton_eq.
Qed.

Lemma snapshot_callback_patient (id : string) (em : bool) (o : option Obj)
    (s : State) :
  patient (snapshot_callback id em o s) = with_id id <$> o.
Proof. destruct o, em; reflexivity. Qed.

Lemma toggleEditMode_frame (s : State) :
  unsubscribeSnapshot (toggleEditMode s) = unsubscribeSnapshot s ∧
  isLoading (toggleEditMode s) = isLoading s ∧
  patient (toggleEditMode s) = patient s.
Proof.
  unfold toggleEditMode.
  destruct (editMode s); destruct (patient s) eqn:E; simpl; by rewrite ?E.
Qed.

(** A submit never touches the listeners, the stored unsubscribe
    function, the loading flag, the record or the draft. *)
Lemma handleUpdatePatient_frame (now : string)
    (reply : option (gmap string Obj)) (s : State) (db : Firestore) :
  let r := handleUpdatePatient now reply s db in
  listeners r.1.2 = listeners db ∧
  next_handle r.1.2 = next_handle db ∧
  unsubscribeSnapshot r.1.1 = unsubscribeSnapshot s ∧
  isLoading r.1.1 = isLoading s ∧
  patient r.1.1 = patient s ∧
  updateData r.1.1 = updateData s ∧
  patientId r.1.1 = patientId s.
Proof.
  unfold handleUpdatePatient.
  destruct (patient s) as [p|] eqn:E; [|simpl; by repeat split].
  destruct (doc_ref p); [|simpl; by repeat split].
  destruct reply; simpl; by repeat split.
Qed.

(** A step that leaves the listeners, the handles, the stored unsubscribe
    function, the search in flight and the loading flag alone keeps the
    invariant, provided the record it holds has an [id]. *)
Lemma view_inv_frame (db0 : Firestore) (c c' : Config) :
  view_inv db0 c →
  listeners (store c') = listeners (store c) →
  next_handle (store c') = next_handle (store c) →
  unsubscribeSnapshot (ui c') = unsubscribeSnapshot (ui c) →
  isLoading (ui c') = isLoading (ui c) →
  pending c' = pending c →
  (∀ p, patient (ui c') = Some p → is_Some (p !! "id")) →
  view_inv db0 c'.
Proof.
  intros [Hl Hu Hn Hq Hp] El En Eu Eload Epend Hpat.
  split; rewrite ?El, ?En, ?Eu, ?Eload, ?Epend; done.
Qed.

Lemma do_search_inv (db0 : Firestore) (c : Config) :
  pending c = None → view_inv db0 c → view_inv db0 (do_search c).
Proof.
  intros Hp Hc. pose proof Hc as [Hl Hu Hn Hq Hpat].
  unfold do_search, handleSearch_start.
  destruct (negb (truthy (trim (patientId (ui c))))).
  { by apply (view_inv_frame db0 c). }
  destruct (currentUser c) as [uid|]; [|by apply (view_inv_frame db0 c)].
  destruct (plain_document_id (patientId (ui c))).
  - split; simpl; try done. intros p [= <-]. simpl. eauto.
  - split; simpl; try done. rewrite Hp. discriminate.
Qed.

Lemma mount_inv (pid : string) (user : option string) (db : Firestore) :
  view_inv db (mount pid user db).
Proof.
  unfold mount.
  assert (view_inv db (mkConfig (initialState pid) db user None [])).
  { split; simpl; try done; try lia.
    exists []. split; [by rewrite app_nil_r|]. intros l []. }
  destruct (truthy pid); [by apply do_search_inv|done].
Qed.

Lemma step_inv (db0 : Firestore) (e : Event) (c : Config) :
  leaked db0 → view_inv db0 c → view_inv db0 (step e c).
Proof.
  intros Hleak Hc. pose proof Hc as [(own & Hl & Hown) Hu Hn Hq Hpat].
  destruct e as [v| |ok|h| |name value|now reply|id data|id|user]; simpl.
  - by apply (view_inv_frame db0 c).
  - unfold search_enabled. destruct (isLoading (ui c)) eqn:E; [done|].
    apply do_search_inv; [|done].
    destruct (pending c) as [p|] eqn:Ep; [|done].
    destruct (Hq p eq_refl) as [H _]. congruence.
  - destruct (pending c) as [p|] eqn:Ep; [|done].
    destruct (Hq p eq_refl) as (_ & Epu & _).
    assert (Hnil : listeners (call_unsubscribe (p_unsubscribeSnapshot p) (store c)).1
                   = listeners db0).
    { apply (call_unsubscribe_own db0 (store c) _ own Hleak Hl).
      - intros l Hin. rewrite Epu. by apply Hown.
      - intros h. rewrite Epu. intros Hh. apply Hu in Hh. lia. }
    destruct (call_unsubscribe_frame (p_unsubscribeSnapshot p) (store c))
      as [Epat Enext].
    destruct ok; simpl.
    2: { split; simpl; try done. by exists own. }
    destruct (getDocs (p_query p) (store c)) as [|d ds]; simpl;
      destruct (call_unsubscribe _ _) as [db1 e1]; simpl in *.
    + split; simpl; rewrite ?Enext; try done.
      exists []. split; [by rewrite app_nil_r|]. intros l [].
    + split; simpl; rewrite ?Enext; try done.
      * exists [mkListener (next_handle (store c)) (doc_id d)
                  (snapshot_callback (doc_id d) (p_editMode p))].
        split; [by rewrite Hnil|]. intros l [<-|[]]. simpl. eauto.
      * intros h [= <-]. lia.
      * lia.
  - unfold find_listener. destruct (find _ _) as [l|] eqn:E; [|done].
    apply find_some in E as [Hin _]. rewrite Hl in Hin.
    apply in_app_or in Hin as [Hin|Hin].
    + destruct (Hleak l Hin) as [Hid _]. rewrite Hid.
      by apply (view_inv_frame db0 c).
    + destruct (Hown l Hin) as (_ & _ & em & Hcb). rewrite Hcb.
      destruct (snapshot_callback_frame (l_doc l) em
                  (patients (store c) !! l_doc l) (ui c)) as (H1 & H2 & _).
      apply (view_inv_frame db0 c); try done.
      simpl. intros p. rewrite snapshot_callback_patient.
      destruct (patients (store c) !! l_doc l); [|discriminate].
      intros [= <-]. apply with_id_has_id.
  - destruct (record_rendered (ui c)) eqn:E; [|done].
    destruct (toggleEditMode_frame (ui c)) as (H1 & H2 & H3).
    apply (view_inv_frame db0 c); try done. simpl. by rewrite H3.
  - destruct (form_rendered (ui c)); [|done].
    by apply (view_inv_frame db0 c).
  - destruct (form_rendered (ui c)); [|done].
    pose proof (handleUpdatePatient_frame now reply (ui c) (store c)) as H.
    destruct (handleUpdatePatient now reply (ui c) (store c)) as [[s db] e].
    simpl in H. destruct H as (H1 & H2 & H3 & H4 & H5 & _).
    apply (view_inv_frame db0 c); try done. simpl. by rewrite H5.
  - by apply (view_inv_frame db0 c).
  - by apply (view_inv_frame db0 c).
  - by apply (view_inv_frame db0 c).
Qed.

Lemma run_snoc (es : list Event) (e : Event) (c : Config) :
  run (es ++ [e]) c = step e (run es c).
Proof. unfold run. by rewrite fold_left_app. Qed.

Lemma reachable_from_inv (db0 : Firestore) (c : Config) :
  leaked db0 → reachable_from db0 c → view_inv db0 c.
Proof.
  intros Hleak (pid & user & es & ->).
  induction es as [|e es IH] using rev_ind.
  - apply mount_inv.
  - rewrite run_snoc. by apply step_inv.
Qed.

Lemma step_reachable (e : Event) (c : Config) : reachable c → reachable (step e c).
Proof.
  intros (db & Hleak & pid & user & es & ->).
  exists db. split; [done|]. exists pid, user, (es ++ [e]). by rewrite run_snoc.
Qed.

Lemma run_reachable (es : list Event) (c : Config) :
  reachable c → reachable (run es c).
Proof.
  revert c. induction es as [|e es IH]; intros c Hc; [done|].
  apply IH. by apply step_reachable.
Qed.

Lemma leaked_nil (docs : gmap string Obj) (n : nat) :
  leaked (mkFirestore docs [] n).
Proof. intros l []. Qed.

Lemma searching_ex_reachable : reachable searching_ex.
Proof.
  exists (mkFirestore docs_ex [] 0). split; [apply leaked_nil|].
  by exists "", (Some "D1"), [Type_patientId "P123"; Click_search].
Qed.

(** What the view leaves behind can be mounted on again. *)
Lemma leave_leaked (pid : string) (c : Config) :
  reachable c → leaked (leave pid c).
Proof.
  intros (db0 & Hleak & Hr). apply reachable_from_inv in Hr; [|done].
  destruct Hr as [(own & Hl & Hown) Hu Hn _ _].
  intros l. unfold leave, unmount. simpl. rewrite in_map_iff.
  intros (l0 & <- & Hin). split; [done|]. simpl.
  rewrite Hl in Hin. apply in_app_or in Hin as [Hin|Hin].
  - destruct (Hleak l0 Hin) as [_ H]. lia.
  - destruct (Hown l0 Hin) as (_ & H & _). apply Hu in H. lia.
Qed.

Lemma found_ex_reachable : reachable found_ex.
Proof. unfold found_ex. apply run_reachable, searching_ex_reachable. Qed.

Lemma researching_ex_reachable : reachable researching_ex.
Proof. unfold researching_ex. apply run_reachable, found_ex_reachable. Qed.

Lemma editing_ex_reachable : reachable editing_ex.
Proof. unfold editing_ex. apply run_reachable, found_ex_reachable. Qed.

(** ** resolve: [handleSearch] *)

Lemma not_blank_truthy (s : string) : all_space s = false → truthy s = true.
Proof. by destruct s. Qed.

Lemma not_blank_trim (s : string) :
  all_space s = false → truthy (trim s) = true.
Proof.
  intros H. destruct (truthy (trim s)) eqn:E; [done|].
  apply blank_iff in E. congruence.
Qed.

(** Whatever the state, a query sent by [handleSearch] is the scoped one,
    and its identifier is a plain document id. *)
Lemma handleSearch_start_pending (user : option string) (s s' : State)
    (e : list Effect) (p : Pending) :
  handleSearch_start user s = (s', e, Some p) →
  ∃ uid, user = Some uid ∧ p_query p = scoped_query uid (patientId s) ∧
         e = [GetDocs (p_query p)] ∧ has_slash (patientId s) = false.
Proof.
  unfold handleSearch_start.
  destruct (negb (truthy (trim (patientId s)))); [discriminate|].
  destruct user as [uid|]; [|discriminate].
  destruct (plain_document_id (patientId s)) eqn:E; [|discriminate].
  intros [= <- <- <-]. exists uid. repeat split.
  apply andb_true_iff in E as [_ E]. by apply negb_true_iff in E.
Qed.

(** What [handleSearch] does up to its [await], for an identifier that is
    not blank and a logged-in doctor. *)
Lemma handleSearch_start_passes (user : option string) (s : State)
    (uid : string) :
  all_space (patientId s) = false →
  user = Some uid →
  handleSearch_start user s
  = (if has_slash (patientId s)
     then (setIsLoading false s, search_failed, None)
     else (setIsLoading true s,
           [GetDocs (scoped_query uid (patientId s))],
           Some (mkPending (scoped_query uid (patientId s)) (editMode s)
                   (unsubscribeSnapshot s)))).
Proof.
  intros Hid ->. unfold handleSearch_start, plain_document_id.
  rewrite (not_blank_trim _ Hid), (not_blank_truthy _ Hid). simpl.
  by destruct (has_slash (patientId s)).
Qed.

(** C1. With an identifier that is not blank and a logged-in doctor,
    [handleSearch] sends at most one query, and a query it sends is on the
    patients collection, constrained by [doctorId == uid] and
    [__name__ == identifier]: it is sent when the identifier has no slash,
    and none is sent when it has one ([query] refuses it, the failure toast
    is shown).  The matches of the query are the stored documents with that
    id owned by that doctor; and when the document under the searched id
    belongs to another doctor the query has no match and the rest of
    [handleSearch] runs its not-found branch, ending in the same view state,
    log and listeners as if the document were not in the store at all. *)
Theorem resolve_query_scoped_to_doctor (c : Config) (uid : string) :
  all_space (patientId (ui c)) = false →
  currentUser c = Some uid →
  let q := scoped_query uid (patientId (ui c)) in
  let p := mkPending q (editMode (ui c)) (unsubscribeSnapshot (ui c)) in
  handleSearch_start (currentUser c) (ui c)
    = (if has_slash (patientId (ui c))
       then (setIsLoading false (ui c), search_failed, None)
       else (setIsLoading true (ui c), [GetDocs q], Some p)) ∧
  (∀ db d, In d (getDocs q db) ↔
     patients db !! doc_id d = Some (doc_data d) ∧
     doc_data d !! "doctorId" = Some uid ∧ doc_id d = patientId (ui c)) ∧
  (∀ db data s,
     patients db !! patientId (ui c) = Some data →
     data !! "doctorId" ≠ Some uid →
     getDocs q db = [] ∧
     handleSearch_resume p (Some (getDocs q db)) s db
       = (setIsLoading false (setPatient None s),
          (call_unsubscribe (unsubscribeSnapshot (ui c)) db).1,
          Toast "Not found" "No patient found with that ID" Destructive
            :: (call_unsubscribe (unsubscribeSnapshot (ui c)) db).2) ∧
     let gone := mkFirestore (delete (patientId (ui c)) (patients db))
                   (listeners db) (next_handle db) in
     let r1 := handleSearch_resume p (Some (getDocs q db)) s db in
     let r2 := handleSearch_resume p (Some (getDocs q gone)) s gone in
     r1.1.1 = r2.1.1 ∧ r1.2 = r2.2 ∧
     listeners r1.1.2 = listeners r2.1.2).
Proof.
  intros Hid Hu q p. split; [|split].
  - by apply handleSearch_start_passes.
  - intros db d. apply getDocs_scoped.
  - intros db data s Hl Hd.
    assert (E1 : getDocs q db = []).
    { apply getDocs_scoped_nil. intros data' Hl'. congruence. }
    assert (E2 : getDocs q (mkFirestore (delete (patientId (ui c)) (patients db))
                              (listeners db) (next_handle db)) = []).
    { apply getDocs_scoped_nil. simpl. intros data'.
      rewrite lookup_delete_eq. discriminate. }
    split; [exact E1|]. cbv zeta. rewrite E1, E2. simpl.
    destruct (unsubscribeSnapshot (ui c)); simpl; auto.
Qed.

Lemma resolve_query_scoped_to_doctor_witness :
  handleSearch_start (Some "D2") (initialState "P123")
    = (setIsLoading true (initialState "P123"),
       [GetDocs (scoped_query "D2" "P123")],
       Some (mkPending (scoped_query "D2" "P123") false None)).
Proof.
  exact (proj1 (resolve_query_scoped_to_doctor
                  (mkConfig (initialState "P123") (mkFirestore docs_ex [] 0)
                     (Some "D2") None [])
                  "D2" eq_refl eq_refl)).
Defined.

Example resolve_slash_ex :
  handleSearch_start (Some "D1") (initialState "a/b")
  = (initialState "a/b", search_failed, None).
Proof. reflexivity. Qed.

(** C2. When the identifier is empty or made of white space only, or when
    nobody is logged in, [handleSearch] shows one destructive "Error" toast
    and does nothing else: no query is sent, no call is left in flight, and
    the view state (record, draft, stored unsubscribe function) and the
    store with its listeners are what they were. *)
Theorem resolve_rejects_blank_or_anonymous (c : Config) :
  all_space (patientId (ui c)) = true ∨ currentUser c = None →
  ∃ msg,
    handleSearch_start (currentUser c) (ui c)
      = (ui c, [Toast "Error" msg Destructive], None) ∧
    do_search c
      = mkConfig (ui c) (store c) (currentUser c) (pending c)
          (log c ++ [Toast "Error" msg Destructive]).
Proof.
  intros H. unfold do_search, handleSearch_start.
  destruct (truthy (trim (patientId (ui c)))) eqn:E; simpl.
  - destruct H as [H|H].
    + apply blank_iff in H. congruence.
    + rewrite H. by eexists.
  - by eexists.
Qed.

Lemma resolve_rejects_blank_or_anonymous_witness :
  ∃ msg,
    handleSearch_start (currentUser found_ex) (setPatientId "  " (ui found_ex))
      = (setPatientId "  " (ui found_ex), [Toast "Error" msg Destructive], None) ∧
    do_search (with_ui (setPatientId "  " (ui found_ex)) found_ex)
      = mkConfig (setPatientId "  " (ui found_ex)) (store found_ex)
          (currentUser found_ex) (pending found_ex)
          (log found_ex ++ [Toast "Error" msg Destructive]).
Proof.
  exact (resolve_rejects_blank_or_anonymous
           (with_ui (setPatientId "  " (ui found_ex)) found_ex)
           (or_introl eq_refl)).
Defined.

(** ** Subscriptions across two visits of the view *)

(** C4. The failing input, evaluated: D1 finds P123, leaves the view (the
    cleanup cancels nothing), comes back and finds P123 again.  The second
    view starts with [unsubscribeSnapshot = null], so its search calls no
    unsubscribe function and registers a second listener: two listeners on
    P123 are live after the successful search. *)
Theorem reentry_found_leaves_two_listeners :
  List.map l_handle (listeners (store found_ex)) = [0] ∧
  List.map l_handle (listeners (leave "" found_ex)) = [0] ∧
  List.map l_handle (listeners (store reentered_found_ex)) = [0; 1] ∧
  List.map l_doc (listeners (store reentered_found_ex)) = ["P123"; "P123"] ∧
  unsubscribeSnapshot (ui reentered_found_ex) = Some 1 ∧
  log reentered_found_ex
  = [GetDocs (scoped_query "D1" "P123"); OnSnapshot "P123" 1].
Proof. repeat split; reflexivity. Qed.

(** C9. The failing input, evaluated: D1 finds P123, leaves the view,
    comes back and searches an id that is not in the store.  The not-found
    branch shows its toast and clears the record, but the listener of the
    first visit is still registered afterwards. *)
Theorem reentry_not_found_keeps_listener :
  log reentered_not_found_ex
  = [GetDocs (scoped_query "D1" "P999");
     Toast "Not found" "No patient found with that ID" Destructive] ∧
  patient (ui reentered_not_found_ex) = None ∧
  List.map l_handle (listeners (store reentered_not_found_ex)) = [0] ∧
  List.map l_doc (listeners (store reentered_not_found_ex)) = ["P123"].
Proof. repeat split; reflexivity. Qed.

(** Both visits are configurations the view can reach. *)
Lemma reentered_reachable :
  reachable reentered_found_ex ∧ reachable reentered_not_found_ex.
Proof.
  split; exists (leave "" found_ex);
    (split; [apply leave_leaked, found_ex_reachable|]);
    by eexists "", (Some "D1"), _.
Qed.

(** ** toggleEdit: [toggleEditMode] *)

(** What [toggleEditMode] does to the state, case by case. *)
Lemma toggleEditMode_off (s : State) (p : Obj) :
  editMode s = true → patient s = Some p →
  toggleEditMode s = setUpdateData p (setEditMode false s).
Proof. intros He Hp. unfold toggleEditMode. by rewrite He, Hp. Qed.

Lemma toggleEditMode_on (s : State) :
  editMode s = false → toggleEditMode s = setEditMode true s.
Proof. intros He. unfold toggleEditMode. by rewrite He. Qed.

(** The guard [editMode && patient]: without a record the draft stays.
    The button that calls [toggleEditMode] is not rendered then. *)
Lemma toggleEditMode_no_record (s : State) :
  patient s = None → toggleEditMode s = setEditMode (negb (editMode s)) s.
Proof. intros Hp. unfold toggleEditMode. rewrite Hp. by destruct (editMode s). Qed.

(** C7. Every click on the toggle button that turns edit mode off finds a
    record held in memory (the last one a snapshot delivered) and leaves
    the draft equal to that record, whatever the draft contained before;
    nothing else in the view state changes. *)
Theorem toggle_off_restores_record (c : Config) :
  editMode (ui c) = true →
  editMode (ui (step Click_toggle c)) = false →
  ∃ p, patient (ui c) = Some p ∧
       ui (step Click_toggle c) = setUpdateData p (setEditMode false (ui c)) ∧
       updateData (ui (step Click_toggle c)) = p ∧
       ∀ draft,
         ui (step Click_toggle (with_ui (setUpdateData draft (ui c)) c))
         = ui (step Click_toggle c).
Proof.
  intros He. simpl. unfold record_rendered. simpl.
  destruct (patient (ui c)) as [p|] eqn:Hp; simpl; [|congruence].
  intros _. exists p. rewrite (toggleEditMode_off _ p He Hp).
  repeat split. intros draft. by rewrite (toggleEditMode_off _ p).
Qed.

Lemma toggle_off_restores_record_witness :
  ∃ p, patient (ui editing_ex) = Some p ∧
       ui (step Click_toggle editing_ex)
         = setUpdateData p (setEditMode false (ui editing_ex)) ∧
       updateData (ui (step Click_toggle editing_ex)) = p ∧
       ∀ draft,
         ui (step Click_toggle
               (with_ui (setUpdateData draft (ui editing_ex)) editing_ex))
         = ui (step Click_toggle editing_ex).
Proof.
  exact (toggle_off_restores_record editing_ex eq_refl eq_refl).
Defined.

Example toggle_off_ex :
  updateData (ui editing_ex) !! "name" = Some "B" ∧
  updateData (ui (step Click_toggle editing_ex)) = with_id "P123" record_ex.
Proof. split; reflexivity. Qed.

(** ** submitEdit: [handleUpdatePatient] *)

(** [patient.id] is defined for every record the view can hold. *)
Lemma reachable_patient_has_id (c : Config) (p : Obj) :
  reachable c → patient (ui c) = Some p → is_Some (p !! "id").
Proof.
  intros (db0 & Hleak & Hr). apply reachable_from_inv in Hr; [|done].
  apply Hr.
Qed.

(** The log of a submit, case by case. *)
Lemma handleUpdatePatient_log (now : string) (reply : option (gmap string Obj))
    (s : State) (db : Firestore) (p : Obj) :
  patient s = Some p →
  (handleUpdatePatient now reply s db).2
  = match doc_ref p with
    | None => update_failed
    | Some id =>
        UpdateDoc id (update_fields now (updateData s))
        :: match reply with
           | Some _ =>
               [Toast "Success" "Patient information updated successfully!"
                  Default]
           | None => update_failed
           end
    end.
Proof.
  intros Hp. unfold handleUpdatePatient. rewrite Hp.
  destruct (doc_ref p); [|done]. by destruct reply.
Qed.

(** C3. With a record held in memory, the object [handleUpdatePatient]
    hands to [updateDoc] is the draft in which [lastVisitDate] is set to the
    time of submission: every other field is the draft's, and a
    [lastVisitDate] in the draft is replaced.  This holds of every
    [updateDoc] call the submit makes; it makes one, first thing, on the
    document named by the record's [id] when that [id] is a document path,
    and none at all (only the failure toast) when [doc(...)] refuses it. *)
Theorem submit_stamps_lastVisitDate (now : string)
    (reply : option (gmap string Obj)) (s : State) (db : Firestore)
    (p : Obj) :
  patient s = Some p →
  let fields := update_fields now (updateData s) in
  let e := (handleUpdatePatient now reply s db).2 in
  fields !! "lastVisitDate" = Some now ∧
  (∀ k, k ≠ "lastVisitDate" → fields !! k = updateData s !! k) ∧
  (∀ id f, In (UpdateDoc id f) e → doc_ref p = Some id ∧ f = fields) ∧
  (∀ id, doc_ref p = Some id → hd_error e = Some (UpdateDoc id fields)) ∧
  (doc_ref p = None → e = update_failed).
Proof.
  intros Hp fields e. subst e. rewrite (handleUpdatePatient_log _ _ _ _ p Hp).
  split; [apply lookup_insert_eq|].
  split; [intros k Hk; by apply lookup_insert_ne|].
  destruct (doc_ref p) as [id0|]; split; [| split | | split].
  - intros id f [H|H]; [by injection H as <- <-|].
    exfalso. destruct reply; simpl in H; intuition discriminate.
  - by intros id [= <-].
  - done.
  - intros id f H. exfalso. simpl in H. intuition discriminate.
  - done.
  - done.
Qed.

Lemma submit_stamps_lastVisitDate_witness :
  hd_error (handleUpdatePatient "2024-05-01T10:00:00.000Z" None
              (handleInputChange "lastVisitDate" "1999" (ui editing_ex))
              (store editing_ex)).2
  = Some (UpdateDoc "P123"
            (update_fields "2024-05-01T10:00:00.000Z"
               (updateData (handleInputChange "lastVisitDate" "1999"
                              (ui editing_ex))))) ∧
  update_fields "2024-05-01T10:00:00.000Z"
    (updateData (handleInputChange "lastVisitDate" "1999" (ui editing_ex)))
    !! "lastVisitDate" = Some "2024-05-01T10:00:00.000Z".
Proof.
  pose proof (submit_stamps_lastVisitDate "2024-05-01T10:00:00.000Z" None
                (handleInputChange "lastVisitDate" "1999" (ui editing_ex))
                (store editing_ex) (with_id "P123" record_ex) eq_refl) as H.
  exact (conj (proj1 (proj2 (proj2 (proj2 H))) "P123" eq_refl) (proj1 H)).
Defined.

(** C8. With a record held in memory: when the update fails, because
    [doc(...)] refuses the record's [id] or because the store rejects the
    call, [handleUpdatePatient] shows the destructive toast "Failed to
    update patient information" (the same text whatever went wrong) and
    leaves the whole view state, edit mode included, and the store as they
    were; when the store accepts the update, a "Success" toast is shown and
    edit mode is switched off, record and draft being kept. *)
Theorem submit_failure_keeps_state (now : string)
    (reply : option (gmap string Obj)) (s : State) (db : Firestore)
    (p : Obj) :
  patient s = Some p →
  let fields := update_fields now (updateData s) in
  let r := handleUpdatePatient now reply s db in
  (doc_ref p = None ∨ reply = None →
     r.1.1 = s ∧ r.1.2 = db ∧
     r.2 = match doc_ref p with
           | Some id => [UpdateDoc id fields]
           | None => []
           end
           ++ [Toast "Error" "Failed to update patient information"
                 Destructive;
               ConsoleError "Error updating patient:"]) ∧
  (∀ id docs, doc_ref p = Some id → reply = Some docs →
     editMode r.1.1 = false ∧ patient r.1.1 = patient s ∧
     updateData r.1.1 = updateData s ∧
     r.1.2 = mkFirestore docs (listeners db) (next_handle db) ∧
     r.2 = [UpdateDoc id fields;
            Toast "Success" "Patient information updated successfully!" Default]).
Proof.
  intros Hp fields r. subst r. unfold handleUpdatePatient. rewrite Hp.
  split.
  - intros [H|H].
    + by rewrite H.
    + subst reply. by destruct (doc_ref p).
  - intros id docs -> ->. done.
Qed.

Lemma submit_failure_keeps_state_witness :
  (handleUpdatePatient "2024-05-01T10:00:00.000Z" None (ui editing_ex)
     (store editing_ex)).1.1 = ui editing_ex ∧
  editMode (ui editing_ex) = true.
Proof.
  pose proof (submit_failure_keeps_state "2024-05-01T10:00:00.000Z" None
                (ui editing_ex) (store editing_ex)
                (with_id "P123" record_ex) eq_refl) as H.
  exact (conj (proj1 (proj1 H (or_intror eq_refl))) eq_refl).
Defined.

(** A record whose stored data carries an empty [id]: the submit fails
    before any call to the store. *)
Example submit_empty_id_ex :
  handleUpdatePatient "t" (Some docs_ex)
    (snapshot_callback "P123" false (Some {[ "id" := ""; "name" := "A" ]})
       (setEditMode true (initialState "P123")))
    (mkFirestore docs_ex [] 0)
  = (snapshot_callback "P123" false (Some {[ "id" := ""; "name" := "A" ]})
       (setEditMode true (initialState "P123")),
     mkFirestore docs_ex [] 0, update_failed).
Proof. reflexivity. Qed.

(** C10. With no record held in memory, [handleUpdatePatient] returns at
    once: the view state and the store are unchanged and nothing is logged
    (no write, no toast). *)
Theorem submit_without_record_is_noop (now : string)
    (reply : option (gmap string Obj)) (s : State) (db : Firestore) :
  patient s = None →
  handleUpdatePatient now reply s db = (s, db, []).
Proof. intros H. unfold handleUpdatePatient. by rewrite H. Qed.

Lemma submit_without_record_is_noop_witness :
  handleUpdatePatient "2024-05-01T10:00:00.000Z" (Some docs_ex)
    (setUpdateData remote_ex (setEditMode true (initialState "P123")))
    (mkFirestore docs_ex [] 0)
  = (setUpdateData remote_ex (setEditMode true (initialState "P123")),
     mkFirestore docs_ex [] 0, []).
Proof.
  exact (submit_without_record_is_noop "2024-05-01T10:00:00.000Z"
           (Some docs_ex)
           (setUpdateData remote_ex (setEditMode true (initialState "P123")))
           (mkFirestore docs_ex [] 0) eq_refl).
Defined.

(** ** Order of teardown and query *)

Lemma found_ex_log :
  log (run [Click_search; Query_settles true] found_ex)
  = [GetDocs (scoped_query "D1" "P123"); OnSnapshot "P123" 0;
     GetDocs (scoped_query "D1" "P123"); Unsubscribe 0; OnSnapshot "P123" 1].
Proof. reflexivity. Qed.


(** What a click on the enabled search button does, for an identifier that
    is not blank and a logged-in doctor. *)
Lemma click_search_passes (c : Config) (uid : string) :
  isLoading (ui c) = false →
  all_space (patientId (ui c)) = false →
  currentUser c = Some uid →
  step Click_search c
  = if has_slash (patientId (ui c)) then
      mkConfig (setIsLoading false (ui c)) (store c) (currentUser c)
        (pending c) (log c ++ search_failed)
    else
      mkConfig (setIsLoading true (ui c)) (store c) (currentUser c)
        (Some (mkPending (scoped_query uid (patientId (ui c)))
                 (editMode (ui c)) (unsubscribeSnapshot (ui c))))
        (log c ++ [GetDocs (scoped_query uid (patientId (ui c)))]).
Proof.
  intros Hload Hid Hu. simpl. unfold search_enabled. rewrite Hload. simpl.
  unfold do_search. rewrite (handleSearch_start_passes _ _ uid Hid Hu).
  by destruct (has_slash (patientId (ui c))).
Qed.



(** ** subscribe: the snapshot callback *)

(** A snapshot of an existing document replaces the record held in memory;
    whether it also replaces the draft is decided by the [editMode] the
    callback closed over, not by the one current at delivery. *)
Lemma snapshot_callback_exists (id : string) (em : bool) (data : Obj)
    (s : State) :
  let s' := snapshot_callback id em (Some data) s in
  patient s' = Some (with_id id data) ∧
  updateData s' = (if em then updateData s else data) ∧
  editMode s' = editMode s.
Proof. by destruct em. Qed.

(** A snapshot of a deleted document clears the record and keeps the
    draft. *)
Lemma snapshot_callback_deleted (id : string) (em : bool) (s : State) :
  snapshot_callback id em None s = setPatient None s.
Proof. reflexivity. Qed.

(** C6.  The code departs from the claim in both directions.  (1) Search
    with edit mode off, open the form, type a new name: when a remote
    change is delivered, edit mode is on and yet the draft, with the typed
    name, is overwritten by the remote values.  (2) Search again from
    inside the form, then leave the form: when a remote change is delivered,
    edit mode is off, the record held in memory is replaced, and yet the
    draft keeps the old values. *)
Theorem snapshot_uses_edit_mode_of_search :
  (editMode (ui editing_ex) = true ∧
   updateData (ui editing_ex) !! "name" = Some "B" ∧
   editMode (ui overwritten_ex) = true ∧
   patient (ui overwritten_ex) = Some (with_id "P123" remote_ex) ∧
   updateData (ui overwritten_ex) = remote_ex) ∧
  (editMode (ui unsynced_ex) = false ∧
   patient (ui unsynced_ex) = Some (with_id "P123" remote_ex) ∧
   updateData (ui unsynced_ex) = with_id "P123" record_ex).
Proof. repeat split; reflexivity. Qed.

(** * Further properties of the view *)

(** ** Subscriptions *)

(** X1. From mount on, the view has at most one listener of its own (one
    that answers to the function held in [unsubscribeSnapshot]); every
    other registered listener was left by an earlier view, does not change
    this view when it fires, and is never cancelled by this view: those
    found in the store at mount are all still registered. *)
Theorem at_most_one_listener (db0 : Firestore) (c : Config) :
  leaked db0 →
  reachable_from db0 c →
  (List.length (own_listeners c) ≤ 1)%nat ∧
  (∀ l, In l (listeners (store c)) →
        (∀ o s, l_callback l o s = s) ∨
        unsubscribeSnapshot (ui c) = Some (l_handle l)) ∧
  (∀ l, In l (listeners db0) → In l (listeners (store c))).
Proof.
  intros Hleak Hr. apply reachable_from_inv in Hr; [|done].
  destruct Hr as [(own & Hl & Hown) Hu _ _ _].
  assert (Hlen : (List.length own ≤ 1)%nat).
  { destruct own as [|l ls]; [simpl; lia|].
    destruct (Hown l (or_introl eq_refl)) as [[= ->] _]. simpl. lia. }
  split; [|split].
  - unfold own_listeners. destruct (unsubscribeSnapshot (ui c)) as [h|] eqn:Eh;
      [|simpl; lia].
    rewrite Hl, List.filter_app, (filter_none _ (listeners db0)).
    + simpl. etransitivity; [apply List.filter_length_le|exact Hlen].
    + intros l Hin. destruct (Hleak l Hin) as [_ Hlt].
      specialize (Hu h eq_refl). apply Nat.eqb_neq. lia.
  - intros l Hin. rewrite Hl in Hin. apply in_app_or in Hin as [Hin|Hin].
    + left. by apply Hleak.
    + right. by apply Hown.
  - intros l Hin. rewrite Hl. apply in_or_app. by left.
Qed.

Lemma at_most_one_listener_witness :
  (List.length (own_listeners reentered_found_ex) ≤ 1)%nat.
Proof.
  exact (proj1 (at_most_one_listener (leave "" found_ex) reentered_found_ex
                  (leave_leaked "" found_ex found_ex_reachable)
                  (ex_intro _ "" (ex_intro _ (Some "D1")
                     (ex_intro _ [Type_patientId "P123"; Click_search;
                                  Query_settles true] eq_refl))))).
Defined.

(** ** The loading flag *)

Lemma step_loading (db0 : Firestore) (e : Event) (c : Config) :
  leaked db0 →
  view_inv db0 c →
  (isLoading (ui c) = true → pending c ≠ None) →
  isLoading (ui (step e c)) = true → pending (step e c) ≠ None.
Proof.
  intros Hleak Hc IH. pose proof Hc as [(own & Hl & Hown) _ _ Hq _].
  destruct e as [v| |ok|h| |name value|now reply|id data|id|user]; simpl;
    try exact IH.
  - unfold search_enabled, do_search, handleSearch_start.
    destruct (isLoading (ui c)) eqn:E; simpl; [auto|].
    destruct (negb (truthy (trim (patientId (ui c))))); simpl; [congruence|].
    destruct (currentUser c); simpl; [|congruence].
    destruct (plain_document_id (patientId (ui c))); simpl;
      [intros _; discriminate|discriminate].
  - destruct (pending c) as [p|] eqn:Ep; [|rewrite Ep; exact IH].
    destruct ok; [|simpl; congruence].
    destruct (getDocs (p_query p) (store c)) as [|d ds]; simpl;
      destruct (call_unsubscribe _ _) as [db1 e1]; simpl; congruence.
  - unfold find_listener. destruct (find _ _) as [l|] eqn:E; [|auto].
    apply find_some in E as [Hin _]. rewrite Hl in Hin. simpl.
    apply in_app_or in Hin as [Hin|Hin].
    + destruct (Hleak l Hin) as [-> _]. exact IH.
    + destruct (Hown l Hin) as (_ & _ & em & ->).
      by destruct (snapshot_callback_frame (l_doc l) em
                     (patients (store c) !! l_doc l) (ui c)) as (_ & -> & _).
  - destruct (record_rendered (ui c)); [|auto]. simpl.
    by destruct (toggleEditMode_frame (ui c)) as (_ & -> & _).
  - by destruct (form_rendered (ui c)).
  - destruct (form_rendered (ui c)); [|auto].
    pose proof (handleUpdatePatient_frame now reply (ui c) (store c)) as H.
    destruct (handleUpdatePatient now reply (ui c) (store c)) as [[s db] e].
    simpl in *. by destruct H as (_ & _ & _ & -> & _).
Qed.

(** X2. The search button is disabled exactly while a query is in flight:
    in every reachable configuration [isLoading] is true if and only if a
    call of [handleSearch] is waiting for [getDocs].  So a click on the
    button during a search changes nothing, and once the query has settled,
    whatever its outcome, the button is enabled again. *)
Theorem loading_iff_search_in_flight (c : Config) :
  reachable c →
  (isLoading (ui c) = true ↔ pending c ≠ None) ∧
  (pending c ≠ None → step Click_search c = c) ∧
  (∀ ok, pending c ≠ None →
         search_enabled (ui (step (Query_settles ok) c)) = true ∧
         pending (step (Query_settles ok) c) = None).
Proof.
  intros (db0 & Hleak & Hr).
  assert (H1 : isLoading (ui c) = true → pending c ≠ None).
  { destruct Hr as (pid & user & es & ->).
    induction es as [|e es IH] using rev_ind.
    - unfold mount, do_search, handleSearch_start. simpl.
      destruct (truthy pid); [|done]. simpl.
      destruct (negb (truthy (trim pid))); simpl; [done|].
      destruct user; [|done]. by destruct (plain_document_id pid).
    - rewrite run_snoc. apply (step_loading db0); [done| |exact IH].
      apply reachable_from_inv; [done|]. by exists pid, user, es. }
  assert (H2 : pending c ≠ None → isLoading (ui c) = true).
  { destruct (pending c) as [p|] eqn:Ep; [|done]. intros _.
    by destruct (inv_pending db0 c (reachable_from_inv db0 c Hleak Hr) p Ep). }
  split; [by split|]. split.
  - intros Hp. simpl. unfold search_enabled. by rewrite (H2 Hp).
  - intros ok Hp. simpl. destruct (pending c) as [p|]; [|done].
    destruct ok; simpl; [|done].
    destruct (getDocs (p_query p) (store c)) as [|d ds]; simpl;
      by destruct (call_unsubscribe _ _) as [db1 e1].
Qed.

Lemma loading_iff_search_in_flight_witness :
  isLoading (ui searching_ex) = true ↔ pending searching_ex ≠ None.
Proof.
  exact (proj1 (loading_iff_search_in_flight searching_ex searching_ex_reachable)).
Defined.

(** ** The query of [handleSearch] *)

Lemma NoDup_map_inj {A B} (f : A → B) (l : list A) :
  (∀ x y, f x = f y → x = y) → NoDup l → NoDup (List.map f l).
Proof.
  intros Hf. induction 1 as [|x l Hx Hl IH]; simpl; constructor; [|done].
  rewrite list_elem_of_In, in_map_iff. intros (y & Hy & Hin).
  apply Hf in Hy. subst y. by apply Hx, list_elem_of_In.
Qed.

Lemma NoDup_filter_bool {A} (f : A → bool) (l : list A) :
  NoDup l → NoDup (List.filter f l).
Proof.
  induction 1 as [|x l Hx Hl IH]; simpl; [constructor|].
  destruct (f x); [|done]. constructor; [|done].
  rewrite list_elem_of_In, filter_In. intros [Hin _].
  by apply Hx, list_elem_of_In.
Qed.

Lemma getDocs_NoDup (q : Query) (db : Firestore) : NoDup (getDocs q db).
Proof.
  unfold getDocs. apply NoDup_filter_bool, NoDup_map_inj.
  - intros [k1 v1] [k2 v2]. simpl. congruence.
  - apply NoDup_map_to_list.
Qed.

Lemma NoDup_all_equal {A} (x : A) (l : list A) :
  NoDup l → (∀ y, In y l → y = x) → l = [] ∨ l = [x].
Proof.
  intros Hnd Hall. destruct l as [|a [|b l]]; [by left| |].
  - right. f_equal. apply Hall. by left.
  - exfalso. assert (a = x) as -> by (apply Hall; by left).
    assert (b = x) as -> by (apply Hall; right; by left).
    apply NoDup_cons in Hnd as [Hn _]. apply Hn. by left.
Qed.

(** The document under the searched id, when the doctor owns it, is the
    whole result. *)
Lemma getDocs_scoped_found (db : Firestore) (uid pid : string) (data : Obj) :
  patients db !! pid = Some data → data !! "doctorId" = Some uid →
  getDocs (scoped_query uid pid) db = [mkDoc pid data].
Proof.
  intros Hl Hd.
  destruct (NoDup_all_equal (mkDoc pid data) (getDocs (scoped_query uid pid) db))
    as [E|E]; [apply getDocs_NoDup| | |exact E].
  - intros [k v] Hin. apply getDocs_scoped in Hin as (Hk & _ & Hp).
    simpl in *. subst k. congruence.
  - exfalso. assert (Hin : In (mkDoc pid data) (getDocs (scoped_query uid pid) db))
      by by apply getDocs_scoped.
    by rewrite E in Hin.
Qed.

(** X3. The query sent by [handleSearch] never has more than one match:
    "the first matching document" is the only one, its id is the identifier
    that was searched (as typed, untrimmed), and it is returned whenever
    the store holds a document under that id owned by the doctor. *)
Theorem scoped_query_single_match (db : Firestore) (uid pid : string) :
  (∀ data, patients db !! pid = Some data → data !! "doctorId" = Some uid →
           getDocs (scoped_query uid pid) db = [mkDoc pid data]) ∧
  ((∀ data, patients db !! pid = Some data → data !! "doctorId" ≠ Some uid) →
   getDocs (scoped_query uid pid) db = []) ∧
  (List.length (getDocs (scoped_query uid pid) db) ≤ 1)%nat ∧
  (∀ d, In d (getDocs (scoped_query uid pid) db) → doc_id d = pid).
Proof.
  pose proof (getDocs_scoped_found db uid pid) as H1.
  split; [exact H1|]. split; [apply getDocs_scoped_nil|]. split.
  - destruct (patients db !! pid) as [data|] eqn:El.
    + destruct (decide (data !! "doctorId" = Some uid)) as [Hd|Hd].
      * rewrite (H1 data eq_refl Hd). simpl. lia.
      * rewrite getDocs_scoped_nil; [simpl; lia|]. intros d' Hd'. congruence.
    + rewrite getDocs_scoped_nil; [simpl; lia|]. intros d' Hd'. congruence.
  - intros d Hin. by apply getDocs_scoped in Hin as (_ & _ & Hp).
Qed.

Lemma scoped_query_single_match_witness :
  getDocs (scoped_query "D1" "P123") (mkFirestore docs_ex [] 0)
  = [mkDoc "P123" record_ex].
Proof.
  exact (proj1 (scoped_query_single_match (mkFirestore docs_ex [] 0) "D1" "P123")
           record_ex eq_refl eq_refl).
Defined.

(** X4. When the query of a search fails, the only change to the view is
    that the search button is enabled again: record, draft, edit mode, input
    and stored unsubscribe function are kept, the store and its listeners
    are untouched (the previous subscription stays live), and one fixed
    "Failed to search for patient" toast is shown. *)
Theorem search_failure_keeps_view (c : Config) (p : Pending) :
  pending c = Some p →
  let c' := step (Query_settles false) c in
  ui c' = setIsLoading false (ui c) ∧
  store c' = store c ∧
  pending c' = None ∧
  log c' = log c ++ [Toast "Error" "Failed to search for patient" Destructive;
                     ConsoleError "Error searching for patient:"].
Proof. intros Hp. simpl. by rewrite Hp. Qed.

Lemma search_failure_keeps_view_witness :
  store (step (Query_settles false) researching_ex) = store researching_ex.
Proof.
  exact (proj1 (proj2 (search_failure_keeps_view researching_ex
                         (mkPending (scoped_query "D1" "P999") false (Some 0))
                         eq_refl))).
Defined.

(** ** Leaving the view *)

(** X5. The cleanup of the mount effect never cancels anything: the
    function it would call is read from the first render, where it is still
    [null].  So when the view is left after a successful search, the
    listener that search registered stays registered. *)
Theorem unmount_keeps_listener (pid : string) (c : Config) :
  unmount pid c = c ∧
  (∀ l, In l (listeners (store c)) → In l (listeners (store (unmount pid c)))).
Proof.
  assert (E : unmount pid c = c).
  { unfold unmount. simpl. destruct c. simpl. by rewrite app_nil_r. }
  split; [exact E|]. by rewrite E.
Qed.

Example unmount_ex :
  List.map l_handle (listeners (store (unmount "" found_ex))) = [0].
Proof. reflexivity. Qed.

(** ** Editing and saving *)

(** X6. What is typed into a form control is what the control shows and
    what the next submit hands to the store: after
    [handleInputChange name value], the draft holds [value] under [name]
    and every other field as before, the record is untouched, and the
    object passed to [updateDoc] by a submit carries [value] under [name]
    (for every field but [lastVisitDate], which gets the submission time)
    and the other draft fields unchanged. *)
Theorem typed_value_is_saved (now name value : string)
    (reply : option (gmap string Obj)) (s : State) (db : Firestore)
    (p : Obj) (id : string) :
  patient s = Some p →
  doc_ref p = Some id →
  name ≠ "lastVisitDate" →
  let s1 := handleInputChange name value s in
  let r := handleUpdatePatient now reply s1 db in
  updateData s1 !! name = Some value ∧
  field_value (updateData s1) name = value ∧
  (∀ k, k ≠ name → updateData s1 !! k = updateData s !! k) ∧
  patient s1 = patient s ∧
  ∃ fields, hd_error r.2 = Some (UpdateDoc id fields) ∧
            fields !! name = Some value ∧
            fields !! "lastVisitDate" = Some now ∧
            ∀ k, k ≠ name → k ≠ "lastVisitDate" →
                 fields !! k = updateData s !! k.
Proof.
  intros Hp Hid Hn s1 r. subst r s1.
  rewrite (handleUpdatePatient_log _ _ _ _ p) by done. rewrite Hid.
  unfold handleInputChange. simpl.
  split; [apply lookup_insert_eq|].
  split; [unfold field_value; rewrite lookup_insert_eq; by destruct value|].
  split; [intros k Hk; by apply lookup_insert_ne|].
  split; [done|].
  eexists. split; [done|]. unfold update_fields. split; [|split].
  - rewrite lookup_insert_ne by done. apply lookup_insert_eq.
  - apply lookup_insert_eq.
  - intros k Hk Hl. by rewrite !lookup_insert_ne.
Qed.

Lemma typed_value_is_saved_witness :
  ∃ fields,
    hd_error (handleUpdatePatient "2024-05-01T10:00:00.000Z" None
                (handleInputChange "age" "41" (ui editing_ex))
                (store editing_ex)).2 = Some (UpdateDoc "P123" fields) ∧
    fields !! "age" = Some "41" ∧
    fields !! "lastVisitDate" = Some "2024-05-01T10:00:00.000Z" ∧
    ∀ k, k ≠ "age" → k ≠ "lastVisitDate" →
         fields !! k = updateData (ui editing_ex) !! k.
Proof.
  exact (proj2 (proj2 (proj2 (proj2
    (typed_value_is_saved "2024-05-01T10:00:00.000Z" "age" "41" None
       (ui editing_ex) (store editing_ex) (with_id "P123" record_ex)
       "P123" eq_refl eq_refl ltac:(discriminate)))))).
Defined.

(** X7. A submit talks to the store at most once, through [updateDoc]: it
    never queries, subscribes or unsubscribes, it leaves the listeners, the
    record, the draft and the search input as they were, and when the
    update is rejected it changes nothing at all. *)
Theorem submit_only_calls_updateDoc (now : string)
    (reply : option (gmap string Obj)) (s : State) (db : Firestore) :
  let r := handleUpdatePatient now reply s db in
  listeners r.1.2 = listeners db ∧
  next_handle r.1.2 = next_handle db ∧
  patient r.1.1 = patient s ∧
  updateData r.1.1 = updateData s ∧
  patientId r.1.1 = patientId s ∧
  unsubscribeSnapshot r.1.1 = unsubscribeSnapshot s ∧
  (∀ e, In e r.2 →
        match e with
        | GetDocs _ | Unsubscribe _ | OnSnapshot _ _ => False
        | _ => True
        end) ∧
  (∀ id f, ¬ In (UpdateDoc id f) (tl r.2)) ∧
  (reply = None → r.1.1 = s ∧ r.1.2 = db).
Proof.
  intros r.
  destruct (handleUpdatePatient_frame now reply s db)
    as (H1 & H2 & H3 & H4 & H5 & H6 & H7).
  repeat (split; [assumption|]). subst r. unfold handleUpdatePatient.
  destruct (patient s) as [p|]; [destruct (doc_ref p) as [id|]; [destruct reply|]|];
    simpl; (split; [|split]); try done.
  all: try (intros e He; repeat (destruct He as [<-|He]; [done|]); done).
  all: intros id' f He; simpl in He; intuition discriminate.
Qed.

(** X8. The document a submit writes to is the one named by the [id] of
    the record held in memory, and [{ id: foundDocId, ...data }] lets a
    field called [id] in the stored data take precedence over the id of the
    document the snapshot came from.  After a snapshot of document
    [foundDocId], the submit targets [data.id] when the data has such a
    field and [foundDocId] otherwise: it calls [updateDoc] on it when it is
    a document path, and fails without any call when it is not (an empty
    [id], say).  The object passed is made from the snapshot data when the
    search was started outside the form, and from the previous draft
    otherwise. *)
Theorem update_target_follows_data_id (foundDocId now : string) (em : bool)
    (reply : option (gmap string Obj)) (data : Obj) (s : State)
    (db : Firestore) :
  let s' := snapshot_callback foundDocId em (Some data) s in
  let target := default foundDocId (data !! "id") in
  (handleUpdatePatient now reply s' db).2
  = if doc_path_ok target then
      UpdateDoc target (update_fields now (if em then updateData s else data))
      :: match reply with
         | Some _ =>
             [Toast "Success" "Patient information updated successfully!"
                Default]
         | None => update_failed
         end
    else update_failed.
Proof.
  intros s' target. subst s' target.
  rewrite (handleUpdatePatient_log _ _ _ _ (with_id foundDocId data))
    by apply snapshot_callback_patient.
  assert (E : with_id foundDocId data !! "id"
              = Some (default foundDocId (data !! "id"))).
  { unfold with_id. destruct (data !! "id") as [x|] eqn:Ex; simpl.
    - by apply lookup_union_Some_l.
    - rewrite lookup_union_r by done. apply lookup_singleton_eq. }
  unfold doc_ref. rewrite E.
  destruct (snapshot_callback_exists foundDocId em data s) as (_ & -> & _).
  by destruct (doc_path_ok _).
Qed.

Example update_target_ex :
  (handleUpdatePatient "t" None
     (snapshot_callback "P123" false
        (Some {[ "id" := "P7"; "name" := "A" ]}) (initialState "P123"))
     (mkFirestore docs_ex [] 0)).2
  = UpdateDoc "P7" {[ "id" := "P7"; "name" := "A"; "lastVisitDate" := "t" ]}
    :: update_failed.
Proof. reflexivity. Qed.

(** ** Searching from inside the form *)

Lemma find_skip {A} (f : A → bool) (l : list A) (x : A) :
  (∀ y, In y l → f y = false) → f x = true → find f (l ++ [x]) = Some x.
Proof.
  intros Hl Hx. induction l as [|a l IH]; simpl; [by rewrite Hx|].
  rewrite (Hl a) by (by left). apply IH. intros y Hy. apply Hl. by right.
Qed.

(** A listener registered after mount is the one its handle finds. *)
Lemma find_listener_own (db0 : Firestore) (m : gmap string Obj)
    (l : Listener) (n : nat) :
  leaked db0 →
  (next_handle db0 ≤ l_handle l)%nat →
  find_listener (l_handle l) (mkFirestore m (listeners db0 ++ [l]) n) = Some l.
Proof.
  intros Hleak Hle. unfold find_listener. simpl. apply find_skip.
  - intros y Hy. destruct (Hleak y Hy) as [_ Hlt]. apply Nat.eqb_neq. lia.
  - apply Nat.eqb_refl.
Qed.

Lemma settle_found (db0 : Firestore) (c : Config) (p : Pending) (d : Doc)
    (ds : list Doc) :
  leaked db0 →
  view_inv db0 c →
  pending c = Some p →
  getDocs (p_query p) (store c) = d :: ds →
  step (Query_settles true) c
  = mkConfig
      (setIsLoading false
         (setUnsubscribeSnapshot (Some (next_handle (store c))) (ui c)))
      (mkFirestore (patients (store c))
         (listeners db0
          ++ [mkListener (next_handle (store c)) (doc_id d)
                (snapshot_callback (doc_id d) (p_editMode p))])
         (S (next_handle (store c))))
      (currentUser c) None
      (log c ++ (call_unsubscribe (p_unsubscribeSnapshot p) (store c)).2
             ++ [OnSnapshot (doc_id d) (next_handle (store c))]).
Proof.
  intros Hleak [(own & Hl & Hown) Hu _ Hq _] Hp Hd.
  destruct (Hq p Hp) as (_ & Epu & _).
  assert (Hnil : listeners (call_unsubscribe (p_unsubscribeSnapshot p) (store c)).1
                 = listeners db0).
  { apply (call_unsubscribe_own db0 (store c) _ own Hleak Hl).
    - intros l Hin. rewrite Epu. by apply Hown.
    - intros h. rewrite Epu. intros Hh. apply Hu in Hh. lia. }
  destruct (call_unsubscribe_frame (p_unsubscribeSnapshot p) (store c))
    as [Epat Enext].
  simpl. rewrite Hp. simpl. rewrite Hd. simpl.
  destruct (call_unsubscribe _ _) as [db1 e1]. simpl in *.
  by rewrite Hnil, Epat, Enext.
Qed.

(** The search of a document the doctor owns, up to its first snapshot. *)
Lemma search_to_first_snapshot (c : Config) (uid : string) (data : Obj) :
  reachable c →
  isLoading (ui c) = false →
  all_space (patientId (ui c)) = false →
  has_slash (patientId (ui c)) = false →
  currentUser c = Some uid →
  patients (store c) !! patientId (ui c) = Some data →
  data !! "doctorId" = Some uid →
  let pid := patientId (ui c) in
  let c3 := run [Click_search; Query_settles true;
                 Snapshot_delivered (next_handle (store c))] c in
  ui c3 = snapshot_callback pid (editMode (ui c)) (Some data)
            (setIsLoading false
               (setUnsubscribeSnapshot (Some (next_handle (store c)))
                  (setIsLoading true (ui c)))) ∧
  patients (store c3) = patients (store c) ∧
  log c3 = log c ++ [GetDocs (scoped_query uid pid)]
           ++ (call_unsubscribe (unsubscribeSnapshot (ui c)) (store c)).2
           ++ [OnSnapshot pid (next_handle (store c))].
Proof.
  intros (db0 & Hleak & Hr) Hload Hid Hslash Hu Hdoc Hown pid c3.
  apply reachable_from_inv in Hr; [|done].
  assert (Hi1 : view_inv db0 (step Click_search c)) by by apply step_inv.
  pose proof (inv_next db0 c Hr) as Hnext.
  subst c3. unfold run. cbn [fold_left].
  rewrite (settle_found db0 (step Click_search c)
             (mkPending (scoped_query uid pid) (editMode (ui c))
                (unsubscribeSnapshot (ui c)))
             (mkDoc pid data) [] Hleak Hi1).
  2: { by rewrite (click_search_passes c uid), Hslash. }
  2: { rewrite (click_search_passes c uid), Hslash by done. simpl.
       by apply getDocs_scoped_found. }
  rewrite (click_search_passes c uid), Hslash by done.
  cbn [step store ui p_editMode doc_id next_handle].
  rewrite (find_listener_own db0 _
             (mkListener (next_handle (store c)) pid
                (snapshot_callback pid (editMode (ui c)))) _ Hleak Hnext).
  cbn [l_callback l_doc patients with_ui ui store log p_unsubscribeSnapshot].
  fold pid in Hdoc. rewrite Hdoc. repeat split.
  by rewrite <- app_assoc.
Qed.

Lemma plain_pid_doc_ref (pid : string) (data : Obj) :
  all_space pid = false → has_slash pid = false → data !! "id" = None →
  doc_ref (with_id pid data) = Some pid.
Proof.
  intros Hb Hs Hn. unfold doc_ref, with_id.
  rewrite lookup_union_r by done. rewrite lookup_singleton_eq.
  rewrite plain_id_doc_path; [done|]. unfold plain_document_id.
  by rewrite (not_blank_truthy _ Hb), Hs.
Qed.

(** X9. A search started while the form is open does not refresh the
    draft.  When the search finds a document (one without an [id] field of
    its own) and its first snapshot arrives, the record on screen is the new
    document while the draft is still the one that was being edited before
    the search; the form is open on it, and a submit calls [updateDoc] on
    the newly found document with that earlier draft, stamped with the
    submission time. *)
Theorem search_from_form_keeps_draft (c : Config) (uid now : string)
    (reply : option (gmap string Obj)) (data : Obj) :
  reachable c →
  isLoading (ui c) = false →
  editMode (ui c) = true →
  all_space (patientId (ui c)) = false →
  has_slash (patientId (ui c)) = false →
  currentUser c = Some uid →
  patients (store c) !! patientId (ui c) = Some data →
  data !! "doctorId" = Some uid →
  data !! "id" = None →
  let pid := patientId (ui c) in
  let c3 := run [Click_search; Query_settles true;
                 Snapshot_delivered (next_handle (store c))] c in
  patient (ui c3) = Some (with_id pid data) ∧
  updateData (ui c3) = updateData (ui c) ∧
  form_rendered (ui c3) = true ∧
  ∃ rest,
    log (step (Submit_form now reply) c3)
    = log c3 ++ UpdateDoc pid (update_fields now (updateData (ui c))) :: rest.
Proof.
  intros Hr Hload Hedit Hid Hslash Hu Hdoc Hown Hnoid pid c3.
  destruct (search_to_first_snapshot c uid data Hr Hload Hid Hslash Hu Hdoc Hown)
    as (Eui & _ & _).
  fold pid c3 in Eui. rewrite Hedit in Eui.
  assert (E1 : patient (ui c3) = Some (with_id pid data)) by by rewrite Eui.
  assert (E2 : updateData (ui c3) = updateData (ui c)) by by rewrite Eui.
  assert (E3 : editMode (ui c3) = true) by by rewrite Eui.
  assert (E4 : form_rendered (ui c3) = true).
  { unfold form_rendered, record_rendered. by rewrite E1, E3. }
  repeat (split; [assumption|]).
  cbn [step]. rewrite E4.
  pose proof (handleUpdatePatient_log now reply (ui c3) (store c3) _ E1) as Hlog.
  rewrite (plain_pid_doc_ref pid data Hid Hslash Hnoid), E2 in Hlog.
  destruct (handleUpdatePatient now reply (ui c3) (store c3)) as [[s db] e].
  simpl in *. rewrite Hlog. by eexists.
Qed.

Lemma search_from_form_keeps_draft_witness :
  updateData (ui (run [Click_search; Query_settles true; Snapshot_delivered 1]
                    editing_ex))
  = updateData (ui editing_ex).
Proof.
  exact (proj1 (proj2
    (search_from_form_keeps_draft editing_ex "D1" "2024-05-01T10:00:00.000Z"
       None record_ex editing_ex_reachable eq_refl eq_refl eq_refl eq_refl
       eq_refl eq_refl eq_refl eq_refl))).
Defined.

(** X10. Search, open the form and save without typing: when the search
    was started outside the form and finds a document (one without an [id]
    field of its own), the draft is the data of the first snapshot, so the
    object the submit passes to [updateDoc], on that document, is the stored
    data with [lastVisitDate] set to the submission time and nothing else
    changed. *)
Theorem save_without_edit_only_stamps (c : Config) (uid now : string)
    (reply : option (gmap string Obj)) (data : Obj) :
  reachable c →
  isLoading (ui c) = false →
  editMode (ui c) = false →
  all_space (patientId (ui c)) = false →
  has_slash (patientId (ui c)) = false →
  currentUser c = Some uid →
  patients (store c) !! patientId (ui c) = Some data →
  data !! "doctorId" = Some uid →
  data !! "id" = None →
  let pid := patientId (ui c) in
  let c4 := run [Click_search; Query_settles true;
                 Snapshot_delivered (next_handle (store c)); Click_toggle] c in
  updateData (ui c4) = data ∧
  form_rendered (ui c4) = true ∧
  ∃ rest,
    log (step (Submit_form now reply) c4)
    = log c4 ++ UpdateDoc pid (<["lastVisitDate" := now]> data) :: rest.
Proof.
  intros Hr Hload Hedit Hid Hslash Hu Hdoc Hown Hnoid pid c4.
  destruct (search_to_first_snapshot c uid data Hr Hload Hid Hslash Hu Hdoc Hown)
    as (Eui & _ & _).
  fold pid in Eui. rewrite Hedit in Eui.
  set (c3 := run [Click_search; Query_settles true;
                  Snapshot_delivered (next_handle (store c))] c) in *.
  assert (E4 : c4 = step Click_toggle c3).
  { subst c4 c3. unfold run. reflexivity. }
  assert (Er : record_rendered (ui c3) = true).
  { unfold record_rendered. by rewrite Eui. }
  assert (Et : ui c4 = setEditMode true (ui c3)).
  { rewrite E4. cbn [step]. rewrite Er. simpl.
    apply toggleEditMode_on. by rewrite Eui. }
  assert (E1 : patient (ui c4) = Some (with_id pid data)) by by rewrite Et, Eui.
  assert (E2 : updateData (ui c4) = data) by by rewrite Et, Eui.
  assert (E5 : form_rendered (ui c4) = true).
  { unfold form_rendered, record_rendered. by rewrite E1, Et. }
  repeat (split; [assumption|]).
  cbn [step]. rewrite E5.
  pose proof (handleUpdatePatient_log now reply (ui c4) (store c4) _ E1) as Hlog.
  rewrite (plain_pid_doc_ref pid data Hid Hslash Hnoid), E2 in Hlog.
  destruct (handleUpdatePatient now reply (ui c4) (store c4)) as [[s db] e].
  simpl in *. rewrite Hlog. by eexists.
Qed.

Lemma save_without_edit_only_stamps_witness :
  ∃ rest,
    log (step (Submit_form "2024-05-01T10:00:00.000Z" None)
           (run [Click_search; Query_settles true; Snapshot_delivered 1;
                 Click_toggle] found_ex))
    = log (run [Click_search; Query_settles true; Snapshot_delivered 1;
                Click_toggle] found_ex)
      ++ UpdateDoc "P123"
           (<["lastVisitDate" := "2024-05-01T10:00:00.000Z"]> record_ex)
         :: rest.
Proof.
  exact (proj2 (proj2
    (save_without_edit_only_stamps found_ex "D1" "2024-05-01T10:00:00.000Z"
       None record_ex found_ex_reachable eq_refl eq_refl eq_refl eq_refl
       eq_refl eq_refl eq_refl eq_refl))).
Defined.

(** ** Mounting the view *)

Lemma mount_log (pid : string) (user : option string) (db : Firestore) :
  let c := mount pid user db in
  patientId (ui c) = pid ∧
  patient (ui c) = None ∧
  store c = db ∧
  log c =
    (if truthy pid then
       if all_space pid then
         [Toast "Error" "Please enter a patient ID" Destructive]
       else
         match user with
         | None => [Toast "Error" "You must be logged in to search for patients"
                      Destructive]
         | Some uid =>
             if has_slash pid then
               [Toast "Error" "Failed to search for patient" Destructive;
                ConsoleError "Error searching for patient:"]
             else [GetDocs (scoped_query uid pid)]
         end
     else []) ∧
  (pending c ≠ None ↔
   all_space pid = false ∧ user ≠ None ∧ has_slash pid = false).
Proof.
  unfold mount, do_search. simpl.
  destruct (truthy pid) eqn:Et; simpl.
  - destruct (all_space pid) eqn:Ea.
    + unfold handleSearch_start. cbn [patientId initialState].
      rewrite (proj2 (blank_iff pid) Ea). simpl.
      repeat split; try done. by intros [? _].
    + destruct user as [uid|].
      * rewrite (handleSearch_start_passes _ _ uid) by done. simpl.
        destruct (has_slash pid); simpl; repeat split; try done.
        by intros (_ & _ & ?).
      * unfold handleSearch_start. cbn [patientId initialState].
        rewrite (not_blank_trim _ Ea). simpl.
        repeat split; try done. by intros (_ & ? & _).
  - apply truthy_false in Et. subst pid. simpl.
    repeat split; try done. by intros [? _].
Qed.

(** X11. Mounting the view leaves the store as it is and runs
    [handleSearch] once exactly when the URL carries a non-empty
    [patientId]; the test is on the raw parameter, so one made of white
    space only produces the "Please enter a patient ID" toast, one that
    arrives before the user is known produces the "must be logged in"
    toast, and one with a slash in it produces the "Failed to search" toast.
    A query is sent, and a call left in flight, only for a parameter that is
    not blank and has no slash, with a user present; no record is shown
    yet.  Without the parameter, or with an empty one, nothing happens at
    all. *)
Theorem mount_runs_one_search (param user : option string) (db : Firestore) :
  let pid := initialPatientId_of param in
  let c := mount pid user db in
  patientId (ui c) = pid ∧
  patient (ui c) = None ∧
  store c = db ∧
  log c =
    (if truthy pid then
       if all_space pid then
         [Toast "Error" "Please enter a patient ID" Destructive]
       else
         match user with
         | None => [Toast "Error" "You must be logged in to search for patients"
                      Destructive]
         | Some uid =>
             if has_slash pid then
               [Toast "Error" "Failed to search for patient" Destructive;
                ConsoleError "Error searching for patient:"]
             else [GetDocs (scoped_query uid pid)]
         end
     else []) ∧
  (pending c ≠ None ↔
   all_space pid = false ∧ user ≠ None ∧ has_slash pid = false) ∧
  (param = None ∨ param = Some "" →
   c = mkConfig (initialState "") db user None []) ∧
  (∀ v, param = Some v → pid = v).
Proof.
  intros pid c.
  destruct (mount_log pid user db) as (H1 & H2 & H3 & H4 & H5).
  repeat (split; [assumption|]). split.
  - subst c pid. by intros [->| ->].
  - subst pid. intros v ->. simpl. by destruct v.
Qed.

Example mount_blank_param_ex :
  log (mount (initialPatientId_of (Some "  ")) (Some "D1")
         (mkFirestore docs_ex [] 0))
  = [Toast "Error" "Please enter a patient ID" Destructive].
Proof. reflexivity. Qed.

Example mount_slash_param_ex :
  log (mount (initialPatientId_of (Some "a/b")) (Some "D1")
         (mkFirestore docs_ex [] 0))
  = search_failed ∧
  pending (mount (initialPatientId_of (Some "a/b")) (Some "D1")
             (mkFirestore docs_ex [] 0)) = None.
Proof. split; reflexivity. Qed.

(** ** A document deleted by someone else *)

(** X12. When the document on screen is deleted remotely and the listener
    of the view delivers it, the record disappears (and with it the toggle
    button and the form: clicks, typing and submits do nothing), while the
    draft, the edit-mode flag and the subscription are kept; if the document
    is created again, the next snapshot brings the record back. *)
Theorem remote_delete_hides_record (c : Config) (l : Listener) :
  reachable c →
  In l (listeners (store c)) →
  unsubscribeSnapshot (ui c) = Some (l_handle l) →
  let c2 := run [Remote_delete (l_doc l); Snapshot_delivered (l_handle l)] c in
  patient (ui c2) = None ∧
  updateData (ui c2) = updateData (ui c) ∧
  editMode (ui c2) = editMode (ui c) ∧
  listeners (store c2) = listeners (store c) ∧
  step Click_toggle c2 = c2 ∧
  (∀ name value, step (Input_change name value) c2 = c2) ∧
  (∀ now reply, step (Submit_form now reply) c2 = c2) ∧
  (∀ data,
     patient (ui (run [Remote_write (l_doc l) data;
                       Snapshot_delivered (l_handle l)] c2))
     = Some (with_id (l_doc l) data)).
Proof.
  intros (db0 & Hleak & Hr) Hin Hown c2.
  apply reachable_from_inv in Hr; [|done].
  destruct Hr as [(own & Hl & Ho) Hu _ _ _].
  destruct (Hu _ Hown) as [Hle _].
  assert (El : listeners (store c) = listeners db0 ++ [l]).
  { rewrite Hl in Hin. apply in_app_or in Hin as [Hin|Hin].
    - destruct (Hleak l Hin) as [_ Hlt]. lia.
    - destruct (Ho l Hin) as [-> _]. exact Hl. }
  assert (Hcb : ∃ em, l_callback l = snapshot_callback (l_doc l) em).
  { rewrite Hl in El. apply app_inv_head in El. apply (Ho l). rewrite El. by left. }
  destruct Hcb as [em Hcb].
  assert (Hfind : ∀ m n, find_listener (l_handle l)
                           (mkFirestore m (listeners (store c)) n) = Some l).
  { intros m n. rewrite El. by apply find_listener_own. }
  assert (E2 : c2 = mkConfig (setPatient None (ui c))
                      (mkFirestore (delete (l_doc l) (patients (store c)))
                         (listeners (store c)) (next_handle (store c)))
                      (currentUser c) (pending c) (log c)).
  { subst c2. unfold run. cbn [fold_left step with_patients store ui].
    rewrite Hfind. cbn [with_ui store patients ui currentUser pending log].
    by rewrite lookup_delete_eq, Hcb. }
  rewrite E2. cbn [ui store patient updateData editMode setPatient listeners].
  repeat split.
  intros data. unfold run. cbn [fold_left step with_patients store ui].
  rewrite Hfind. cbn [with_ui store patients ui].
  rewrite lookup_insert_eq, Hcb. by rewrite snapshot_callback_patient.
Qed.

Lemma remote_delete_hides_record_witness :
  patient (ui (run [Remote_delete "P123"; Snapshot_delivered 0] editing_ex))
  = None ∧
  updateData (ui (run [Remote_delete "P123"; Snapshot_delivered 0] editing_ex))
  = updateData (ui editing_ex).
Proof.
  pose proof (remote_delete_hides_record editing_ex
                (mkListener 0 "P123" (snapshot_callback "P123" false))
                editing_ex_reachable (or_introl eq_refl) eq_refl) as H.
  exact (conj (proj1 H) (proj1 (proj2 H))).
Defined.

(** * The login page *)

(** X13. [handleSubmit] calls [login] exactly when both fields are
    non-empty, and then with the values as typed (no trimming: a user name
    made of spaces is sent).  With an empty field it shows "Please fill all
    fields" and changes nothing. *)
Theorem login_called_iff_fields_filled (ok : bool) (s : Login.State)
    (u p : string) :
  (In (Login.LoginCall u p) (Login.handleSubmit ok s).2 ↔
   u = Login.username s ∧ p = Login.password s ∧ u ≠ "" ∧ p ≠ "") ∧
  (Login.username s = "" ∨ Login.password s = "" →
   Login.handleSubmit ok s
   = (s, [Login.Toast "Error" "Please fill all fields" Destructive])).
Proof.
  unfold Login.handleSubmit, Login.handleSubmit_start, Login.handleSubmit_resume.
  destruct (Login.username s) as [|a u'] eqn:Eu;
    destruct (Login.password s) as [|b p'] eqn:Ep; simpl.
  1-3: split; [|done]; split;
       [intros [H|[]]; discriminate
       |intros (-> & -> & ? & ?); congruence].
  split; [|intros [?|?]; discriminate].
  destruct ok; simpl; split.
  - intros [[= <- <-]|[H|[H|[]]]]; try discriminate. done.
  - intros (-> & -> & _ & _). by left.
  - intros [[= <- <-]|[H|[]]]; try discriminate. done.
  - intros (-> & -> & _ & _). by left.
Qed.

(** X14. [handleSubmit] navigates only after a successful login, and then
    to [/dashboard]: a navigation is logged if and only if both fields are
    non-empty and [login] resolved.  Every attempt, successful or not, ends
    with the button enabled again, and a failed one shows the fixed
    "Failed to log in" toast. *)
Theorem login_navigates_iff_success (ok : bool) (s : Login.State)
    (path : string) :
  (In (Login.Navigate path) (Login.handleSubmit ok s).2 ↔
   path = "/dashboard" ∧ Login.username s ≠ "" ∧ Login.password s ≠ "" ∧
   ok = true) ∧
  (Login.username s ≠ "" → Login.password s ≠ "" →
   Login.isLoading (Login.handleSubmit ok s).1 = false ∧
   (ok = false →
    (Login.handleSubmit ok s).2
    = [Login.LoginCall (Login.username s) (Login.password s);
       Login.Toast "Error" "Failed to log in. Please check your credentials."
         Destructive])).
Proof.
  unfold Login.handleSubmit, Login.handleSubmit_start, Login.handleSubmit_resume.
  destruct (Login.username s) as [|a u'] eqn:Eu;
    destruct (Login.password s) as [|b p'] eqn:Ep; simpl.
  1-3: split; [|done]; split;
       [intros [H|[]]; discriminate
       |intros (_ & ? & ? & _); congruence].
  split.
  - destruct ok; simpl; split.
    + intros [H|[H|[[= <-]|[]]]]; try discriminate. done.
    + intros (-> & _). right. right. by left.
    + intros [H|[H|[]]]; discriminate.
    + intros (_ & _ & _ & ?). discriminate.
  - intros _ _. split; [done|]. by intros ->.
Qed.

(** * The sidebar *)

(** X15. A sidebar link is highlighted exactly when the current path is
    equal to its target (a longer path or a trailing slash does not count),
    so for every location at most one of the two links is highlighted. *)
Theorem sidebar_highlights_at_most_one (pathname : string) :
  (∀ path, isActive pathname path = true ↔ pathname = path) ∧
  (∀ path, link_className pathname path
           = "block py-2 px-4 rounded-lg font-bold underline"
           ↔ pathname = path) ∧
  (List.length (List.filter (isActive pathname) nav_links) ≤ 1)%nat ∧
  (List.filter (isActive pathname) nav_links ≠ [] ↔ In pathname nav_links).
Proof.
  assert (H : ∀ path, isActive pathname path = true ↔ pathname = path)
    by (intros path; apply String.eqb_eq).
  split; [exact H|]. split; [|split].
  - intros path. unfold link_className. rewrite <- H.
    destruct (isActive pathname path); vm_compute; split; intros E;
      first [reflexivity | discriminate E].
  - simpl.
    destruct (isActive pathname "/new-patient") eqn:E1;
      destruct (isActive pathname "/search-patient") eqn:E2; simpl; try lia.
    apply H in E1. apply H in E2. congruence.
  - simpl.
    destruct (isActive pathname "/new-patient") eqn:E1;
      destruct (isActive pathname "/search-patient") eqn:E2; simpl.
    + split; [intros _|intros _; discriminate]. left. symmetry. by apply H.
    + split; [intros _|intros _; discriminate]. left. symmetry. by apply H.
    + split; [intros _|intros _; discriminate]. right. left. symmetry. by apply H.
    + split; [intros E; by destruct E|].
      intros [E|[E|[]]]; symmetry in E; apply H in E; congruence.
Qed.

Example sidebar_trailing_slash_ex :
  List.filter (isActive "/search-patient/") nav_links = [].
Proof. reflexivity. Qed.
